(** * google-sheet-api: the sheet parsers and the cache-fronted fetcher

    A shallow embedding of the two server variants of the repository.

    - [Flat]: [src/index.js], which reads the spreadsheet through the
      values endpoint (a matrix of formatted strings).
    - [Grid]: [src/unnamed/part_000], which reads it with
      [includeGridData=true] (rows of cells carrying a formatted value and
      a background colour).

    Both share the cache-fronted [fetchSheetData] and the request handler
    of [/api/sheet-data], modelled once in [Server] over the parser.

    JavaScript values are modelled as the code uses them: numbers are
    binary64 floats (the kernel's primitive floats), strings are sequences
    of code units, plain objects are finite maps of own properties together
    with the prototype that an assignment to the key [__proto__] installs,
    and an uncaught [TypeError] is an explicit error result. *)

From Stdlib Require Import Ascii String ZArith NArith Floats.
From stdpp Require Import gmap strings list option.

Local Open Scope string_scope.

(* 0.8, 0.2 and 0.5 denote the nearest binary64 values, as in JavaScript. *)
Set Warnings "-inexact-float".

(** ** JavaScript primitives used by the two files *)

Module JS.

(** A character of a [string] stands for one UTF-16 code unit below 256.
    Of the code units that [String.prototype.trim] and [Number] strip, those
    in that range are TAB, LF, VT, FF, CR, SPACE and NO-BREAK SPACE. *)
Definition code (c : ascii) : N := N_of_ascii c.

Definition isWhiteSpace (c : ascii) : bool :=
  let n := code c in
  ((9 <=? n) && (n <=? 13) || (n =? 32) || (n =? 160))%N.

Fixpoint trimStart (s : string) : string :=
  match s with
  | EmptyString => EmptyString
  | String c r => if isWhiteSpace c then trimStart r else s
  end.

Fixpoint trimEnd (s : string) : string :=
  match s with
  | EmptyString => EmptyString
  | String c r =>
      match trimEnd r with
      | EmptyString => if isWhiteSpace c then EmptyString else String c EmptyString
      | r' => String c r'
      end
  end.

(** [s.trim()] *)
Definition trim (s : string) : string := trimEnd (trimStart s).

(** [ToBoolean] of a string: only the empty string is falsy. *)
Definition truthy (s : string) : bool :=
  match s with
  | EmptyString => false
  | String _ _ => true
  end.

(** *** [Number(string)]: the StringToNumber grammar *)

Definition inRange (lo hi n : N) : bool := ((lo <=? n) && (n <=? hi))%N.

Definition decDigit (c : ascii) : option N :=
  let n := code c in
  if inRange 48 57 n then Some (n - 48)%N else None.

Definition hexDigit (c : ascii) : option N :=
  let n := code c in
  if inRange 48 57 n then Some (n - 48)%N
  else if inRange 97 102 n then Some (n - 87)%N
  else if inRange 65 70 n then Some (n - 55)%N
  else None.

Definition octDigit (c : ascii) : option N :=
  let n := code c in
  if inRange 48 55 n then Some (n - 48)%N else None.

Definition binDigit (c : ascii) : option N :=
  let n := code c in
  if inRange 48 49 n then Some (n - 48)%N else None.

(** The longest prefix of digits of [s]: its value in the given base on top
    of [acc], the number of digits read on top of [cnt], and what follows. *)
Fixpoint digits (base : N) (dig : ascii → option N) (s : string)
    (acc : N) (cnt : nat) : N * nat * string :=
  match s with
  | EmptyString => (acc, cnt, EmptyString)
  | String c r =>
      match dig c with
      | Some d => digits base dig r (acc * base + d)%N (S cnt)
      | None => (acc, cnt, s)
      end
  end.

(** The binary64 value nearest to an integer (ties to even). *)
Definition roundInteger (neg : bool) (m : N) : float :=
  SF2Prim (binary_normalize prec emax
             (if neg then - Z.of_N m else Z.of_N m)%Z 0 neg).

(** The binary64 value nearest to [m * 10^e] (ties to even). *)
Definition roundDecimal (neg : bool) (m : N) (e : Z) : float :=
  match m with
  | N0 => if neg then neg_zero else PrimFloat.zero
  | Npos p =>
      if (0 <=? e)%Z
      then roundInteger neg (Npos p * Z.to_N (10 ^ e))
      else SF2Prim (SFdiv prec emax
                      (S754_finite neg p 0)
                      (S754_finite false (Z.to_pos (10 ^ (- e))) 0))
  end.

(** ExponentPart, or nothing, up to the end of the text. *)
Definition parseExponent (s : string) : option Z :=
  match s with
  | EmptyString => Some 0%Z
  | String c r =>
      if bool_decide (c = "e"%char ∨ c = "E"%char) then
        let '(neg, r1) :=
          match r with
          | String "+"%char r' => (false, r')
          | String "-"%char r' => (true, r')
          | _ => (false, r)
          end in
        match digits 10 decDigit r1 0 0 with
        | (v, S _, EmptyString) =>
            Some (if neg then - Z.of_N v else Z.of_N v)%Z
        | _ => None
        end
      else None
  end.

(** StrUnsignedDecimalLiteral. *)
Definition parseUnsignedDecimal (neg : bool) (s : string) : float :=
  if bool_decide (s = "Infinity") then
    (if neg then neg_infinity else infinity)
  else
    let '(ip, ni, r1) := digits 10 decDigit s 0 0 in
    let '(m, nf, r2) :=
      match r1 with
      | String "."%char r' => digits 10 decDigit r' ip 0
      | _ => (ip, O, r1)
      end in
    match (ni + nf)%nat with
    | O => nan
    | S _ =>
        match parseExponent r2 with
        | Some e => roundDecimal neg m (e - Z.of_nat nf)
        | None => nan
        end
    end.

(** NonDecimalIntegerLiteral: [0x], [0o], [0b] and their capitals. [None]
    when the text does not start as one. *)
Definition parseNonDecimal (s : string) : option float :=
  match s with
  | String "0"%char (String c r) =>
      let literal base dig :=
        match digits base dig r 0 0 with
        | (v, S _, EmptyString) => Some (roundInteger false v)
        | _ => Some nan
        end in
      if bool_decide (c = "x"%char ∨ c = "X"%char) then literal 16%N hexDigit
      else if bool_decide (c = "o"%char ∨ c = "O"%char) then literal 8%N octDigit
      else if bool_decide (c = "b"%char ∨ c = "B"%char) then literal 2%N binDigit
      else None
  | _ => None
  end.

(** [Number(s)] for a string [s]. *)
Definition StringToNumber (s : string) : float :=
  match trim s with
  | EmptyString => PrimFloat.zero
  | t =>
      match parseNonDecimal t with
      | Some x => x
      | None =>
          match t with
          | String "+"%char r => parseUnsignedDecimal false r
          | String "-"%char r => parseUnsignedDecimal true r
          | _ => parseUnsignedDecimal false t
          end
      end
  end.

(** The values that the parsers store in a field. *)
Inductive Value :=
  | Undefined
  | Null
  | Num (x : float)
  | Str (s : string).

(** [Number(v)] where [v] is a string or [undefined]. *)
Definition Number (v : option string) : float :=
  match v with
  | None => nan
  | Some s => StringToNumber s
  end.

(** [ToBoolean] of a number: [NaN], [+0] and [-0] are falsy. *)
Definition truthyNum (x : float) : bool := negb (is_nan x || is_zero x).

(** [Number(v) || null] *)
Definition NumberOrNull (v : string) : Value :=
  let x := StringToNumber v in
  if truthyNum x then Num x else Null.

(** *** Plain objects

    [own] holds the own enumerable properties. [proto] is the object that
    an assignment [o["__proto__"] = v] installed as prototype ([None] while
    it is still [Object.prototype]): such an assignment runs the inherited
    setter and creates no own property. *)
Record Obj (V : Type) := mkObj { own : gmap string V; proto : option V }.
Arguments mkObj {V} _ _.
Arguments own {V} _.
Arguments proto {V} _.

Definition emptyObj {V} : Obj V := mkObj ∅ None.

(** [o[k] = v] for an object value [v]. *)
Definition setProp {V} (k : string) (v : V) (o : Obj V) : Obj V :=
  if bool_decide (k = "__proto__")
  then mkObj (own o) (Some v)
  else mkObj (<[k := v]> (own o)) (proto o).

(** [o[k]] for a key that was assigned before. *)
Definition getProp {V} (k : string) (o : Obj V) : option V :=
  if bool_decide (k = "__proto__") then proto o else own o !! k.

(** [o[k].field = ...]: the object stored under [k] is changed in place. *)
Definition modifyProp {V} (k : string) (f : V → V) (o : Obj V) : Obj V :=
  if bool_decide (k = "__proto__")
  then mkObj (own o) (f <$> proto o)
  else mkObj (alter f k (own o)) (proto o).

(** An uncaught exception, with its [message]. *)
Inductive Error :=
  | TypeError (message : string)
  | AxiosError (message : string).

Definition message (e : Error) : string :=
  match e with
  | TypeError m => m
  | AxiosError m => m
  end.

Inductive Result (A : Type) :=
  | Ok (a : A)
  | Throw (e : Error).
Arguments Ok {A} _.
Arguments Throw {A} _.

(** [Object.keys(o)]: the own enumerable keys. The order of enumeration is
    not modelled; no statement below depends on it. *)
Definition keys {V} (o : Obj V) : list string := (map_to_list (own o)).*1.

End JS.

(** ** The cache-fronted fetcher and the request handler

    [fetchSheetData] and the handler of [GET /api/sheet-data] read the same
    in both files; they differ in the parser and in the part of the
    response that is handed to it, which are the parameters here. *)

Module Server.

(** What [await axios.get(url)] does: resolve with [response.data], or
    reject. *)
Inductive Upstream (Response : Type) :=
  | Resolved (data : Response)
  | Rejected (e : JS.Error).
Arguments Resolved {Response} _.
Arguments Rejected {Response} _.

(** [let cache = null; let cacheTimestamp = 0;] *)
Record State (Output : Type) := mkState {
  cache : option Output;
  cacheTimestamp : Z
}.
Arguments mkState {Output} _ _.
Arguments cache {Output} _.
Arguments cacheTimestamp {Output} _.

Definition initial {Output} : State Output := mkState None 0.

(** [30 * 1000], in milliseconds *)
Definition CACHE_DURATION : Z := 30 * 1000.

(** What one call leaves behind: its result, the cache slot, and the number
    of upstream requests that it issued. *)
Record Outcome (Output : Type) := mkOutcome {
  result : JS.Result Output;
  state : State Output;
  calls : nat
}.
Arguments mkOutcome {Output} _ _ _.
Arguments result {Output} _.
Arguments state {Output} _.
Arguments calls {Output} _.

(** The body of a reply of the handler. *)
Inductive Body (Output : Type) :=
  | Json (jsonData : Output)
  | Failure (error details : string).
Arguments Json {Output} _.
Arguments Failure {Output} _ _.

Record Reply (Output : Type) := mkReply {
  status : nat;
  body : Body Output
}.
Arguments mkReply {Output} _ _.
Arguments status {Output} _.
Arguments body {Output} _.

Section Fetch.
Context {Response Output : Type}.

(** [parseSheetData], applied to what the file takes from the response. *)
Variable parseSheetData : Response → JS.Result Output.

(** [now] is the value of [Date.now()], [upstream] what the request
    does if it is issued. *)
Definition fetchSheetData (now : Z) (upstream : Upstream Response)
    (st : State Output) : Outcome Output :=
  let miss :=
    match upstream with
    | Rejected e => mkOutcome (JS.Throw e) st 1
    | Resolved data =>
        match parseSheetData data with
        | JS.Throw e => mkOutcome (JS.Throw e) st 1
        | JS.Ok jsonData =>
            mkOutcome (JS.Ok jsonData) (mkState (Some jsonData) now) 1
        end
    end in
  match cache st with
  | Some c =>
      if (now - cacheTimestamp st <? CACHE_DURATION)%Z
      then mkOutcome (JS.Ok c) st 0
      else miss
  | None => miss
  end.

(** [app.get('/api/sheet-data', ...)]: the reply, the cache slot and the
    number of upstream requests. *)
Definition handler (now : Z) (upstream : Upstream Response)
    (st : State Output) : Reply Output * State Output * nat :=
  let o := fetchSheetData now upstream st in
  match result o with
  | JS.Ok jsonData => (mkReply 200 (Json jsonData), state o, calls o)
  | JS.Throw error =>
      (mkReply 500 (Failure "Failed to fetch sheet data" (JS.message error)),
       state o, calls o)
  end.
End Fetch.

End Server.

(** ** [src/index.js]: the values matrix *)

Module Flat.

Definition SHEET_NAME : string := "Sheet1".

(** A row of [response.data.values]: the formatted cells, without the
    trailing empty ones. *)
Abbreviation Row := (list string).

(** An entry of [data]: the object literal of lines 42-47, keyed by the
    header names. *)
Abbreviation Entry := (gmap string JS.Value).

(** A computed key [[headers[k]]]: a missing header is [undefined], whose
    property key is the text "undefined". *)
Definition propertyKey (h : option string) : string :=
  match h with
  | Some s => s
  | None => "undefined"
  end.

(** [row[1] === "-" || row[1] === "null" ? null : Number(row[1])] *)
Definition column1 (c : option string) : JS.Value :=
  if bool_decide (c = Some "-" ∨ c = Some "null") then JS.Null
  else JS.Num (JS.Number c).

(** [row[2] === "-" ? null : Number(row[2])] *)
Definition column2 (c : option string) : JS.Value :=
  if bool_decide (c = Some "-") then JS.Null else JS.Num (JS.Number c).

(** [row[3] === "-" ? null : row[3]], and the same for [row[4]] *)
Definition column34 (c : option string) : JS.Value :=
  match c with
  | None => JS.Undefined
  | Some s => if bool_decide (s = "-") then JS.Null else JS.Str s
  end.

(** The object literal: four computed properties, defined in order. *)
Definition entry (headers row : Row) : Entry :=
  <[propertyKey (headers !! 4%nat) := column34 (row !! 4%nat)]>
  (<[propertyKey (headers !! 3%nat) := column34 (row !! 3%nat)]>
  (<[propertyKey (headers !! 2%nat) := column2 (row !! 2%nat)]>
  (<[propertyKey (headers !! 1%nat) := column1 (row !! 1%nat)]> ∅))).

(** One turn of the loop. *)
Definition step (headers : Row) (data : JS.Obj Entry) (row : Row)
    : JS.Obj Entry :=
  match row !! 0%nat with
  | None => data
  | Some serviceName =>
      if JS.truthy serviceName
      then JS.setProp serviceName (entry headers row) data
      else data
  end.

(** [rows] is [response.data.values], which the provider leaves out when the
    range is empty. *)
Definition parseSheetData (rows : option (list Row))
    : JS.Result (gmap string (JS.Obj Entry)) :=
  match rows with
  | None =>
      JS.Throw (JS.TypeError "Cannot read properties of undefined (reading '0')")
  | Some [] => JS.Ok {[ SHEET_NAME := JS.emptyObj ]}
  | Some (headers :: body) =>
      JS.Ok {[ SHEET_NAME := foldl (step headers) JS.emptyObj body ]}
  end.

Definition fetchSheetData := Server.fetchSheetData parseSheetData.
Definition handler := Server.handler parseSheetData.

End Flat.

(** ** [src/unnamed/part_000]: the grid with formatting *)

Module Grid.

Definition SHEET_NAME : string := "Sheet1".

(** *** The response of the provider, as far as the parser reads it.
    A field that the JSON may leave out is an [option]. *)

Record Color := mkColor {
  red : option float;
  green : option float;
  blue : option float
}.

Record CellFormat := mkCellFormat { backgroundColor : option Color }.

Record Cell := mkCell {
  formattedValue : option string;
  effectiveFormat : option CellFormat
}.

Record RowData := mkRowData { values : option (list Cell) }.

Record GridData := mkGridData { rowData : option (list RowData) }.

Record Properties := mkProperties { title : option string }.

Record Sheet := mkSheet {
  properties : option Properties;
  data : option (list GridData)
}.

Record Spreadsheet := mkSpreadsheet { sheets : option (list Sheet) }.

(** *** The output *)

Inductive ColorName := Red | Green | Gray.

(** [{ colour: ... }], an entry of a [Subheading] mapping *)
Record SubEntry := mkSubEntry { colour : ColorName }.

(** [{ name: ..., colour: ... }] *)
Record Status := mkStatus { name : string; statusColour : ColorName }.

(** The [Subheading] field: an object, or the number [0] after the final
    clean-up. *)
Inductive SubheadingField :=
  | SubObject (o : JS.Obj SubEntry)
  | SubZero.

Record EntityRecord := mkEntity {
  Subheading : SubheadingField;
  Compliant : JS.Value;
  Total : string;
  Mising : string;
  PercentCompliant : string;
  status_C : option Status;
  status_E : option Status
}.

(** *** [rgbToColorName] *)

Definition rgbToColorName (rgbColor : option Color) : ColorName :=
  match rgbColor with
  | None => Gray
  | Some c =>
      let red := default 0%float (red c) in
      let green := default 0%float (green c) in
      let blue := default 0%float (blue c) in
      if ((0.8 <? red) && (green <? 0.2) && (blue <? 0.2))%float then Red
      else if ((0.5 <? green) && (red <? 0.5))%float then Green
      else Gray
  end.

(** *** [parseSheetData] *)

(** [gridData.sheets.find(s => s.properties.title === SHEET_NAME)] over the
    elements of the array. *)
Fixpoint find (l : list Sheet) : JS.Result (option Sheet) :=
  match l with
  | [] => JS.Ok None
  | s :: rest =>
      match properties s with
      | None =>
          JS.Throw (JS.TypeError
            "Cannot read properties of undefined (reading 'title')")
      | Some p =>
          if bool_decide (title p = Some SHEET_NAME) then JS.Ok (Some s)
          else find rest
      end
  end.

(** [headerMap[header.trim()] = index]: a number assigned to [__proto__] is
    dropped by the inherited setter. *)
Definition setIndex (k : string) (index : nat) (headerMap : gmap string nat)
    : gmap string nat :=
  if bool_decide (k = "__proto__") then headerMap else <[k := index]> headerMap.

(** The [forEach] over the headers, from position [index] on. *)
Fixpoint buildHeaderMap (headers : list (option string)) (index : nat)
    (headerMap : gmap string nat) : gmap string nat :=
  match headers with
  | [] => headerMap
  | header :: rest =>
      buildHeaderMap rest (S index)
        match header with
        | Some h =>
            if JS.truthy h then setIndex (JS.trim h) index headerMap
            else headerMap
        | None => headerMap
        end
  end.

Record CellData := mkCellData { value : string; color : ColorName }.

(** [cell.effectiveFormat?.backgroundColor] *)
Definition backgroundOf (cell : Cell) : option Color :=
  match effectiveFormat cell with
  | None => None
  | Some f => backgroundColor f
  end.

Definition getCellData (headerMap : gmap string nat) (rowData : list Cell)
    (headerName : string) : CellData :=
  match headerMap !! headerName with
  | None => mkCellData "" Gray
  | Some index =>
      match rowData !! index with
      | None => mkCellData "" Gray
      | Some cell =>
          mkCellData (default "" (formattedValue cell))
                     (rgbToColorName (backgroundOf cell))
      end
  end.

Definition setStatusC (s : Status) (r : EntityRecord) : EntityRecord :=
  mkEntity (Subheading r) (Compliant r) (Total r) (Mising r)
           (PercentCompliant r) (Some s) (status_E r).

Definition setStatusE (s : Status) (r : EntityRecord) : EntityRecord :=
  mkEntity (Subheading r) (Compliant r) (Total r) (Mising r)
           (PercentCompliant r) (status_C r) (Some s).

Definition setSubheading (f : SubheadingField) (r : EntityRecord)
    : EntityRecord :=
  mkEntity f (Compliant r) (Total r) (Mising r)
           (PercentCompliant r) (status_C r) (status_E r).

(** [if (typeof r.Subheading !== 'object') r.Subheading = {}] *)
Definition ensureObject (r : EntityRecord) : EntityRecord :=
  match Subheading r with
  | SubObject _ => r
  | SubZero => setSubheading (SubObject JS.emptyObj) r
  end.

(** [r.Subheading[k] = e]; an assignment to a property of a number does
    nothing. *)
Definition addSubheading (k : string) (e : SubEntry) (r : EntityRecord)
    : EntityRecord :=
  match Subheading r with
  | SubObject o => setSubheading (SubObject (JS.setProp k e o)) r
  | SubZero => r
  end.

(** The state of the loop: [data] and [currentServiceKey]. The record under
    the key that is open always exists ([loop_current_defined] below), so
    that [data[currentServiceKey]] never reads [undefined]. *)
Definition LoopState : Type := JS.Obj EntityRecord * option string.

(** Lines 94-119: a row with a name opens a record. *)
Definition openRecord (headerMap : gmap string nat) (rowData : list Cell)
    (st : LoopState) : LoopState :=
  let getCellData := getCellData headerMap rowData in
  let serviceName := value (getCellData "Service") in
  if JS.truthy serviceName && negb (bool_decide (JS.trim serviceName = ""))
  then
    let currentServiceKey := JS.trim serviceName in
    let data :=
      JS.setProp currentServiceKey
        (mkEntity (SubObject JS.emptyObj)
                  (JS.NumberOrNull (value (getCellData "Compliant")))
                  (value (getCellData "Total"))
                  (value (getCellData "Mising"))
                  (value (getCellData "% Compliant"))
                  None None)
        (fst st) in
    let statusC := getCellData "Status C" in
    let data :=
      if JS.truthy (value statusC)
      then JS.modifyProp currentServiceKey
             (setStatusC (mkStatus (value statusC) (color statusC))) data
      else data in
    let statusE := getCellData "Status E" in
    let data :=
      if JS.truthy (value statusE)
      then JS.modifyProp currentServiceKey
             (setStatusE (mkStatus (value statusE) (color statusE))) data
      else data in
    (data, Some currentServiceKey)
  else st.

(** Lines 121-129: a row with a subheading is attached to the open record. *)
Definition attachSubheading (headerMap : gmap string nat)
    (rowData : list Cell) (st : LoopState) : LoopState :=
  let getCellData := getCellData headerMap rowData in
  let subheadingName := value (getCellData "Subheading") in
  match snd st with
  | None => st
  | Some currentServiceKey =>
      if JS.truthy currentServiceKey && JS.truthy subheadingName
         && negb (bool_decide (JS.trim subheadingName = ""))
      then
        let data := JS.modifyProp currentServiceKey ensureObject (fst st) in
        let subheadingCell := getCellData "Subheading" in
        (JS.modifyProp currentServiceKey
           (addSubheading (JS.trim subheadingName)
              (mkSubEntry (color subheadingCell))) data,
         Some currentServiceKey)
      else st
  end.

(** One turn of the loop over the rows. *)
Definition step (headerMap : gmap string nat) (st : LoopState)
    (row : RowData) : LoopState :=
  let rowData := default [] (values row) in
  attachSubheading headerMap rowData (openRecord headerMap rowData st).

(** The clean-up of one own property of [data]. *)
Definition cleanupRecord (r : EntityRecord) : EntityRecord :=
  match Subheading r with
  | SubObject o =>
      if bool_decide (length (JS.keys o) = 0%nat)
      then setSubheading SubZero r
      else r
  | SubZero => r
  end.

(** The final [for (const serviceKey in data)]. It visits the own keys of
    [data], and then the enumerable keys that [data] inherits when a record
    was installed as its prototype (a service named [__proto__]) and no own
    key shadows them. For such a key [data[serviceKey]] is a field of that
    prototype: reading [.Subheading] off [null] throws, while off a number,
    a string, a status object or the subheading object it is [undefined] or
    an entry with one key, and the turn does nothing. Of the fields only
    [Compliant] can hold [null]. *)
Definition cleanup (data : JS.Obj EntityRecord)
    : JS.Result (JS.Obj EntityRecord) :=
  let cleaned := JS.mkObj (cleanupRecord <$> JS.own data) (JS.proto data) in
  match JS.proto data with
  | None => JS.Ok cleaned
  | Some inherited =>
      match JS.own data !! "Compliant", Compliant inherited with
      | None, JS.Null =>
          JS.Throw (JS.TypeError
            "Cannot read properties of null (reading 'Subheading')")
      | _, _ => JS.Ok cleaned
      end
  end.

(** Lines 65-139, for the rows of the first grid of the sheet. *)
Definition parseRows (rows : list RowData)
    : JS.Result (gmap string (JS.Obj EntityRecord)) :=
  match rows with
  | [] =>
      JS.Throw (JS.TypeError
        "Cannot read properties of undefined (reading 'values')")
  | first :: body =>
      match values first with
      | None =>
          JS.Throw (JS.TypeError
            "Cannot read properties of undefined (reading 'map')")
      | Some cells =>
          let headers := formattedValue <$> cells in
          let headerMap := buildHeaderMap headers 0 ∅ in
          match cleanup (fst (foldl (step headerMap) (JS.emptyObj, None) body)) with
          | JS.Throw e => JS.Throw e
          | JS.Ok data => JS.Ok {[ SHEET_NAME := data ]}
          end
      end
  end.

Definition parseSheetData (gridData : Spreadsheet)
    : JS.Result (gmap string (JS.Obj EntityRecord)) :=
  match sheets gridData with
  | None =>
      JS.Throw (JS.TypeError
        "Cannot read properties of undefined (reading 'find')")
  | Some l =>
      match find l with
      | JS.Throw e => JS.Throw e
      | JS.Ok None => JS.Ok {[ SHEET_NAME := JS.emptyObj ]}
      | JS.Ok (Some sheet) =>
          match data sheet with
          | None => JS.Ok {[ SHEET_NAME := JS.emptyObj ]}
          | Some [] =>
              JS.Throw (JS.TypeError
                "Cannot read properties of undefined (reading 'rowData')")
          | Some (grid :: _) =>
              match rowData grid with
              | None => JS.Ok {[ SHEET_NAME := JS.emptyObj ]}
              | Some rows => parseRows rows
              end
          end
      end
  end.

Definition fetchSheetData := Server.fetchSheetData parseSheetData.
Definition handler := Server.handler parseSheetData.

End Grid.

(** ** Concrete inputs used in the statements below *)

Module Inputs.

(** A cell with a text and no formatting, and a cell of an empty column. *)
Definition text (s : string) : Grid.Cell := Grid.mkCell (Some s) None.
Definition blank : Grid.Cell := Grid.mkCell None None.
Definition row (cells : list Grid.Cell) : Grid.RowData :=
  Grid.mkRowData (Some cells).

(** A spreadsheet whose only sheet is [Sheet1], with one grid of rows. *)
Definition spreadsheet (rows : list Grid.RowData) : Grid.Spreadsheet :=
  Grid.mkSpreadsheet
    (Some [Grid.mkSheet (Some (Grid.mkProperties (Some "Sheet1")))
                        (Some [Grid.mkGridData (Some rows)])]).

Definition gridHeaders : Grid.RowData :=
  row (text <$> ["Service"; "Subheading"; "Compliant"; "Total"; "Mising";
                 "% Compliant"]).

Definition rgb (r g b : float) : option Grid.Color :=
  Some (Grid.mkColor (Some r) (Some g) (Some b)).

Definition flatHeaders : Flat.Row :=
  ["Service"; "Compliant"; "Total"; "Missing"; "%Compliant"].

(** The header map of [gridHeaders]. *)
Definition headerMap : gmap string nat :=
  Grid.buildHeaderMap
    (Some <$> ["Service"; "Subheading"; "Compliant"; "Total"; "Mising";
               "% Compliant"]) 0 ∅.

(** A named row whose other cells hold the placeholder "-". *)
Definition dashRow : Grid.RowData :=
  row [text "API"; blank; text "-"; text "-"; text "-"; text "-"].

(** A row without a name that carries a subheading. *)
Definition subheadingRow (s : string) : Grid.RowData :=
  row [blank; text s].

(** A named row whose compliant cell holds "0", and the record that it
    opens. *)
Definition zeroRow : Grid.RowData :=
  row [text "API"; blank; text "0"; text "100"; text "5"; text "95%"].

Definition zeroRecord : Grid.EntityRecord :=
  Grid.mkEntity Grid.SubZero JS.Null "100" "5" "95%" None None.

(** A named row with all its columns, and the record that it opens. *)
Definition apiRow : Grid.RowData :=
  row [text "API"; blank; text "42"; text "100"; text "5"; text "95%"].

Definition apiRecord (f : Grid.SubheadingField) : Grid.EntityRecord :=
  Grid.mkEntity f (JS.Num 42) "100" "5" "95%" None None.

(** Rows of the values matrix: an empty compliant cell, a compliant cell
    that is not a number, the placeholder in every column, and a name of
    white space. *)
Definition flatRows : option (list Flat.Row) :=
  Some [flatHeaders;
        ["API"; ""; "100"; "5"; "95%"];
        ["DB"; "n/a"; "100"; "5"; "95%"];
        ["Cache"; "42"; "-"; "-"; "-"];
        [" "; "42"; "100"; "5"; "95%"]].

(** The loop before its first turn. *)
Definition start : Grid.LoopState := (JS.emptyObj, None).

End Inputs.

(** ** Vocabulary of the statements *)

Module Props.

(** Two records that differ at most in their [Subheading] field. *)
Definition sameButSubheading (r r' : Grid.EntityRecord) : Prop :=
  Grid.Compliant r = Grid.Compliant r'
  ∧ Grid.Total r = Grid.Total r'
  ∧ Grid.Mising r = Grid.Mising r'
  ∧ Grid.PercentCompliant r = Grid.PercentCompliant r'
  ∧ Grid.status_C r = Grid.status_C r'
  ∧ Grid.status_E r = Grid.status_E r'.

(** The cells of a row, and the text that [getCellData] reads in the column
    of a header. *)
Definition cellsOf (row : Grid.RowData) : list Grid.Cell :=
  default [] (Grid.values row).

Definition textOf (headerMap : gmap string nat) (row : Grid.RowData)
    (headerName : string) : string :=
  Grid.value (Grid.getCellData headerMap (cellsOf row) headerName).

(** The [Compliant] field is [null] or a number other than [NaN] and the
    zeros. *)
Definition nullOrNonzero (v : JS.Value) : Prop :=
  v = JS.Null ∨ ∃ x, v = JS.Num x ∧ is_nan x = false ∧ is_zero x = false.

(** The rows that [parseSheetData] reads: the [rowData] of the first grid of
    the first sheet with the configured title. *)
Definition rowsOf (gridData : Grid.Spreadsheet) : option (list Grid.RowData) :=
  match Grid.sheets gridData with
  | None => None
  | Some l =>
      match Grid.find l with
      | JS.Ok (Some sheet) =>
          match Grid.data sheet with
          | Some (grid :: _) => Grid.rowData grid
          | _ => None
          end
      | _ => None
      end
  end.

(** The header map that the parser builds from the first row. *)
Definition headerMapOf (first : Grid.RowData) : gmap string nat :=
  Grid.buildHeaderMap (Grid.formattedValue <$> cellsOf first) 0 ∅.

(** A sheet that [find] passes over: it has a title other than the
    configured one, or none. *)
Definition otherTitle (s : Grid.Sheet) : Prop :=
  ∃ p, Grid.properties s = Some p ∧ Grid.title p ≠ Some Grid.SHEET_NAME.

(** A sheet at which [find] stops. *)
Definition hasTitle (s : Grid.Sheet) : Prop :=
  ∃ p, Grid.properties s = Some p ∧ Grid.title p = Some Grid.SHEET_NAME.

(** The subheading rows that the loop attaches, by the tests of lines 94
    and 121 alone: for every key, the trimmed subheading names of the rows
    attached to its record since the row that last opened it. *)
Definition openNames (headerMap : gmap string nat) (row : Grid.RowData)
    (acc : gmap string (list string) * option string)
    : gmap string (list string) * option string :=
  let serviceName := textOf headerMap row "Service" in
  if JS.truthy serviceName && negb (bool_decide (JS.trim serviceName = ""))
  then (<[JS.trim serviceName := []]> (fst acc), Some (JS.trim serviceName))
  else acc.

Definition attachNames (headerMap : gmap string nat) (row : Grid.RowData)
    (acc : gmap string (list string) * option string)
    : gmap string (list string) * option string :=
  let subheadingName := textOf headerMap row "Subheading" in
  match snd acc with
  | None => acc
  | Some key =>
      if JS.truthy key && JS.truthy subheadingName
         && negb (bool_decide (JS.trim subheadingName = ""))
      then (alter (λ l, l ++ [JS.trim subheadingName])%list key (fst acc),
            Some key)
      else acc
  end.

Definition attachStep (headerMap : gmap string nat)
    (acc : gmap string (list string) * option string) (row : Grid.RowData)
    : gmap string (list string) * option string :=
  attachNames headerMap row (openNames headerMap row acc).

Definition attached (headerMap : gmap string nat) (rows : list Grid.RowData)
    : gmap string (list string) :=
  fst (foldl (attachStep headerMap) (∅, None) rows).

(** The attached names that become own keys of the [Subheading] mapping:
    all but [__proto__]. *)
Definition ownNames (l : list string) : list string :=
  filter (λ s, s ≠ "__proto__") l.

(** The loop and the attachments agree: the same key is open, and every
    record holds a mapping whose own keys are the names attached to it. *)
Definition agree (st : Grid.LoopState)
    (acc : gmap string (list string) * option string) : Prop :=
  snd st = snd acc
  ∧ JS.own (fst st) !! "__proto__" = None
  ∧ ∀ k,
      match JS.getProp k (fst st), fst acc !! k with
      | Some r, Some l =>
          ∃ o, Grid.Subheading r = Grid.SubObject o
             ∧ dom (JS.own o) = list_to_set (ownNames l)
      | None, None => True
      | _, _ => False
      end.

(** A field of an entry of the output of the flat parser. *)
Definition flatField (res : JS.Result (gmap string (JS.Obj Flat.Entry)))
    (service column : string) : option JS.Value :=
  match res with
  | JS.Ok out =>
      data ← out !! Flat.SHEET_NAME; e ← JS.own data !! service; e !! column
  | JS.Throw _ => None
  end.

(** A property of every record that [data] holds, as an own property or as
    its prototype. *)
Definition everyRecord (P : Grid.EntityRecord → Prop)
    (data : JS.Obj Grid.EntityRecord) : Prop :=
  map_Forall (λ _, P) (JS.own data) ∧ ∀ r, JS.proto data = Some r → P r.

End Props.

(** ** Requests one after the other, and requests that overlap

    [fetchSheetData] is an [async] function: it runs without interruption
    up to [await axios.get(url)], and again from the moment the request
    settles. [start] is the first part, [resume] the second; other calls may
    run in between. *)

Module Traffic.

(** How a call stands after its first part: it has returned the cache, or
    it waits for the request, holding its [now]. *)
Inductive Started (Output : Type) :=
  | Served (cached : Output)
  | Awaiting (now : Z).
Arguments Served {Output} _.
Arguments Awaiting {Output} _.

Section Traffic.
Context {Response Output : Type}.
Variable parseSheetData : Response → JS.Result Output.

(** Lines 148-159 of the grid variant (55-62 of the flat one). *)
Definition start (now : Z) (st : Server.State Output) : Started Output :=
  match Server.cache st with
  | Some c =>
      if (now - Server.cacheTimestamp st <? Server.CACHE_DURATION)%Z
      then Served c
      else Awaiting now
  | None => Awaiting now
  end.

(** Lines 159-166 (62-67), once the request has settled: the result of the
    call and the cache slot that it leaves. *)
Definition resume (now : Z) (upstream : Server.Upstream Response)
    (st : Server.State Output) : JS.Result Output * Server.State Output :=
  match upstream with
  | Server.Rejected e => (JS.Throw e, st)
  | Server.Resolved data =>
      match parseSheetData data with
      | JS.Throw e => (JS.Throw e, st)
      | JS.Ok jsonData => (JS.Ok jsonData, Server.mkState (Some jsonData) now)
      end
  end.

(** The handler serving requests one after the other, each with the time of
    its call and the answer that the provider would give: the replies, the
    cache slot at the end, and the number of requests sent upstream. *)
Fixpoint serve (requests : list (Z * Server.Upstream Response))
    (st : Server.State Output)
    : list (Server.Reply Output) * Server.State Output * nat :=
  match requests with
  | [] => ([], st, 0%nat)
  | (now, upstream) :: rest =>
      let '(reply, st1, n) := Server.handler parseSheetData now upstream st in
      let '(replies, st2, m) := serve rest st1 in
      (reply :: replies, st2, (n + m)%nat)
  end.
End Traffic.

End Traffic.

(** ** More vocabulary: rows, names and headers *)

Module Rows.

(** The trimmed name and the trimmed subheading of a row of the grid. *)
Definition nameOf (headerMap : gmap string nat) (row : Grid.RowData) : string :=
  JS.trim (Props.textOf headerMap row "Service").

Definition subheadingOf (headerMap : gmap string nat) (row : Grid.RowData)
    : string :=
  JS.trim (Props.textOf headerMap row "Subheading").

(** The classified colour that [getCellData] reads in a column. *)
Definition colorOf (headerMap : gmap string nat) (row : Grid.RowData)
    (headerName : string) : Grid.ColorName :=
  Grid.color (Grid.getCellData headerMap (Props.cellsOf row) headerName).

(** The status object of a column: none for an empty text. *)
Definition statusOf (headerMap : gmap string nat) (row : Grid.RowData)
    (headerName : string) : option Grid.Status :=
  if JS.truthy (Props.textOf headerMap row headerName)
  then Some (Grid.mkStatus (Props.textOf headerMap row headerName)
                           (colorOf headerMap row headerName))
  else None.

(** The record that a named row opens, before any subheading. *)
Definition recordOf (headerMap : gmap string nat) (row : Grid.RowData)
    : Grid.EntityRecord :=
  Grid.mkEntity (Grid.SubObject JS.emptyObj)
    (JS.NumberOrNull (Props.textOf headerMap row "Compliant"))
    (Props.textOf headerMap row "Total")
    (Props.textOf headerMap row "Mising")
    (Props.textOf headerMap row "% Compliant")
    (statusOf headerMap row "Status C")
    (statusOf headerMap row "Status E").

(** A header cell that is entered in the header map under [k]. *)
Definition entersAs (k : string) (header : option string) : Prop :=
  ∃ h, header = Some h ∧ h ≠ "" ∧ JS.trim h = k.

End Rows.

(** ** Facts about the primitives *)

Section ObjFacts.
Context {V : Type}.
Implicit Types (o : JS.Obj V) (k : string) (f : V → V).

Lemma getProp_setProp k v o : JS.getProp k (JS.setProp k v o) = Some v.
Proof.
  unfold JS.getProp, JS.setProp.
  case_bool_decide; simpl; [done | by rewrite lookup_insert_eq].
Qed.

Lemma getProp_setProp_ne k k' v o :
  k ≠ k' → JS.getProp k' (JS.setProp k v o) = JS.getProp k' o.
Proof.
  intros Hne. unfold JS.getProp, JS.setProp.
  repeat case_bool_decide; simpl; try congruence.
  by rewrite lookup_insert_ne.
Qed.

Lemma getProp_modifyProp k f o :
  JS.getProp k (JS.modifyProp k f o) = f <$> JS.getProp k o.
Proof.
  unfold JS.getProp, JS.modifyProp.
  case_bool_decide; simpl; [done | by rewrite lookup_alter_eq].
Qed.

Lemma getProp_modifyProp_ne k k' f o :
  k ≠ k' → JS.getProp k' (JS.modifyProp k f o) = JS.getProp k' o.
Proof.
  intros Hne. unfold JS.getProp, JS.modifyProp.
  repeat case_bool_decide; simpl; try congruence.
  by rewrite lookup_alter_ne.
Qed.

(** Changing a stored object in place neither adds nor removes a key. *)
Lemma dom_modifyProp k f o :
  dom (JS.own (JS.modifyProp k f o)) = dom (JS.own o)
  ∧ (is_Some (JS.proto (JS.modifyProp k f o)) ↔ is_Some (JS.proto o)).
Proof.
  unfold JS.modifyProp. case_bool_decide; simpl.
  - split; [done | by rewrite fmap_is_Some].
  - split; [by rewrite dom_alter_L | done].
Qed.
End ObjFacts.

Lemma trim_nonempty_truthy s : JS.trim s ≠ "" → JS.truthy s = true.
Proof. by destruct s. Qed.

(** [Number] on sample texts: decimal literals with fraction and exponent,
    the other radices, the infinities, white space around the literal, and
    texts that are no literal. *)
Example StringToNumber_samples :
  JS.StringToNumber "42" = 42%float
  ∧ JS.StringToNumber " 4.5e1 " = 45%float
  ∧ JS.StringToNumber ".5" = 0.5%float
  ∧ JS.StringToNumber "1." = 1%float
  ∧ JS.StringToNumber "0.1" = 0.1%float
  ∧ JS.StringToNumber "-0" = neg_zero
  ∧ JS.StringToNumber "0x1F" = 31%float
  ∧ JS.StringToNumber "0b101" = 5%float
  ∧ JS.StringToNumber "-Infinity" = neg_infinity
  ∧ JS.StringToNumber "1e400" = infinity
  ∧ JS.StringToNumber "1e-400" = 0%float
  ∧ JS.StringToNumber "" = 0%float
  ∧ JS.StringToNumber "   " = 0%float
  ∧ JS.StringToNumber "-" = nan
  ∧ JS.StringToNumber "null" = nan
  ∧ JS.StringToNumber "95%" = nan
  ∧ JS.StringToNumber "1,000" = nan
  ∧ JS.StringToNumber "1 2" = nan
  ∧ JS.StringToNumber "." = nan
  ∧ JS.StringToNumber "1e" = nan
  ∧ JS.StringToNumber "0x" = nan
  ∧ JS.StringToNumber "-0x10" = nan.
Proof. repeat split; vm_compute; reflexivity. Qed.

Example trim_samples :
  JS.trim "  a b  " = "a b" ∧ JS.trim "   " = "" ∧ JS.trim "" = ""
  ∧ JS.trim (String (ascii_of_N 9) "x" ++ String (ascii_of_N 160) "") = "x".
Proof. repeat split; vm_compute; reflexivity. Qed.

(** [Number(v) || null] is [null] or a number that is neither [NaN] nor a
    zero. *)
Lemma NumberOrNull_cases v :
  JS.NumberOrNull v = JS.Null
  ∨ ∃ x, JS.NumberOrNull v = JS.Num x ∧ is_nan x = false ∧ is_zero x = false.
Proof.
  unfold JS.NumberOrNull, JS.truthyNum.
  destruct (is_nan _) eqn:Hn, (is_zero _) eqn:Hz; simpl; eauto.
Qed.

Lemma NumberOrNull_nan v :
  is_nan (JS.StringToNumber v) = true → JS.NumberOrNull v = JS.Null.
Proof. unfold JS.NumberOrNull, JS.truthyNum. by intros ->. Qed.

Lemma NumberOrNull_zero v :
  is_zero (JS.StringToNumber v) = true → JS.NumberOrNull v = JS.Null.
Proof.
  unfold JS.NumberOrNull, JS.truthyNum. intros ->. by rewrite orb_true_r.
Qed.

(** ** Facts about the loop of the grid variant *)

Section GridLoop.
Import Props.
Variable headerMap : gmap string nat.
Implicit Types (st : Grid.LoopState) (row : Grid.RowData)
  (r : Grid.EntityRecord).

Lemma sameButSubheading_refl r : sameButSubheading r r.
Proof. by repeat split. Qed.

Lemma sameButSubheading_trans r1 r2 r3 :
  sameButSubheading r1 r2 → sameButSubheading r2 r3 →
  sameButSubheading r1 r3.
Proof. unfold sameButSubheading. intuition congruence. Qed.

Lemma ensureObject_same r : sameButSubheading r (Grid.ensureObject r).
Proof. unfold Grid.ensureObject. destruct (Grid.Subheading r); by repeat split. Qed.

Lemma addSubheading_same k e r :
  sameButSubheading r (Grid.addSubheading k e r).
Proof. unfold Grid.addSubheading. destruct (Grid.Subheading r); by repeat split. Qed.

(** Attaching a subheading keeps the key that is open, the set of keys,
    and every field of every record apart from [Subheading]. *)
Lemma attachSubheading_current cells st :
  snd (Grid.attachSubheading headerMap cells st) = snd st.
Proof.
  unfold Grid.attachSubheading. destruct st as [d [cur|]]; simpl; [|done].
  by destruct (_ && _).
Qed.

Lemma attachSubheading_keys cells st :
  dom (JS.own (fst (Grid.attachSubheading headerMap cells st)))
    = dom (JS.own (fst st))
  ∧ (is_Some (JS.proto (fst (Grid.attachSubheading headerMap cells st)))
     ↔ is_Some (JS.proto (fst st))).
Proof.
  unfold Grid.attachSubheading. destruct st as [d [cur|]]; simpl; [|done].
  destruct (_ && _); simpl; [|done].
  destruct (dom_modifyProp cur
    (Grid.addSubheading
       (JS.trim (Grid.value (Grid.getCellData headerMap cells "Subheading")))
       (Grid.mkSubEntry
          (Grid.color (Grid.getCellData headerMap cells "Subheading"))))
    (JS.modifyProp cur Grid.ensureObject d)) as [-> ->].
  apply dom_modifyProp.
Qed.

Lemma attachSubheading_records cells st k r' :
  JS.getProp k (fst (Grid.attachSubheading headerMap cells st)) = Some r' →
  ∃ r, JS.getProp k (fst st) = Some r ∧ sameButSubheading r r'.
Proof.
  unfold Grid.attachSubheading. destruct st as [d [cur|]]; simpl;
    [|intros; eauto using sameButSubheading_refl].
  destruct (_ && _); simpl; [|intros; eauto using sameButSubheading_refl].
  destruct (decide (cur = k)) as [->|Hne].
  - rewrite !getProp_modifyProp.
    destruct (JS.getProp k d) as [r|]; simpl; [|done].
    intros [= <-]. exists r. split; [done|].
    eapply sameButSubheading_trans;
      [apply ensureObject_same | apply addSubheading_same].
  - rewrite !getProp_modifyProp_ne by done.
    intros; eauto using sameButSubheading_refl.
Qed.

(** A row whose trimmed name is empty opens nothing. *)
Lemma openRecord_unnamed cells st :
  JS.trim (Grid.value (Grid.getCellData headerMap cells "Service")) = "" →
  Grid.openRecord headerMap cells st = st.
Proof.
  intros H. unfold Grid.openRecord. rewrite H.
  by rewrite bool_decide_eq_true_2, andb_false_r.
Qed.

(** A row whose trimmed name is not empty opens the record of that name,
    with the columns of the row. *)
Lemma openRecord_named cells st :
  let cell := Grid.getCellData headerMap cells in
  let key := JS.trim (Grid.value (cell "Service")) in
  key ≠ "" →
  snd (Grid.openRecord headerMap cells st) = Some key
  ∧ ∃ r, JS.getProp key (fst (Grid.openRecord headerMap cells st)) = Some r
      ∧ Grid.Subheading r = Grid.SubObject JS.emptyObj
      ∧ Grid.Compliant r = JS.NumberOrNull (Grid.value (cell "Compliant"))
      ∧ Grid.Total r = Grid.value (cell "Total")
      ∧ Grid.Mising r = Grid.value (cell "Mising")
      ∧ Grid.PercentCompliant r = Grid.value (cell "% Compliant").
Proof.
  intros cell key Hkey. unfold Grid.openRecord. fold cell. fold key.
  rewrite (trim_nonempty_truthy _ Hkey), (bool_decide_eq_false_2 _ Hkey).
  simpl. split; [done|].
  destruct (JS.truthy (Grid.value (cell "Status C")));
    destruct (JS.truthy (Grid.value (cell "Status E")));
    rewrite ?getProp_modifyProp, getProp_setProp; simpl; eauto 10.
Qed.

Lemma step_named st row :
  let key := JS.trim (textOf headerMap row "Service") in
  key ≠ "" →
  snd (Grid.step headerMap st row) = Some key
  ∧ ∃ r, JS.getProp key (fst (Grid.step headerMap st row)) = Some r
      ∧ Grid.Compliant r
          = JS.NumberOrNull (textOf headerMap row "Compliant")
      ∧ Grid.Total r = textOf headerMap row "Total"
      ∧ Grid.Mising r = textOf headerMap row "Mising"
      ∧ Grid.PercentCompliant r = textOf headerMap row "% Compliant".
Proof.
  intros key Hkey. unfold Grid.step. subst key. unfold textOf in *.
  set (key := JS.trim _) in *.
  destruct (openRecord_named (cellsOf row) st Hkey)
    as (Hcur & r & Hr & _ & Hc & Ht & Hm & Hp).
  fold (cellsOf row). rewrite attachSubheading_current. split; [done|].
  set (st1 := Grid.openRecord headerMap (cellsOf row) st) in *.
  destruct (JS.getProp key (fst (Grid.attachSubheading headerMap (cellsOf row) st1)))
    as [r'|] eqn:Hr'.
  - destruct (attachSubheading_records _ _ _ _ Hr') as (r0 & Hr0 & Hsame).
    fold key in Hr. assert (r0 = r) as -> by congruence.
    destruct Hsame as (? & ? & ? & ? & _).
    exists r'. repeat split; congruence.
  - exfalso. revert Hr'. unfold Grid.attachSubheading. rewrite Hcur.
    fold key in Hr |- *.
    destruct (_ && _); simpl; rewrite ?getProp_modifyProp, Hr; done.
Qed.
End GridLoop.

(** ** Facts about the loop of the flat variant *)

Lemma flat_step_named headers data row serviceName :
  row !! 0%nat = Some serviceName → serviceName ≠ "" →
  Flat.step headers data row
    = JS.setProp serviceName (Flat.entry headers row) data.
Proof. unfold Flat.step. intros -> ?. by destruct serviceName. Qed.

Lemma flat_step_unnamed headers data row :
  row !! 0%nat = None ∨ row !! 0%nat = Some "" →
  Flat.step headers data row = data.
Proof. unfold Flat.step. by intros [-> | ->]. Qed.

(** ** The colour classifier *)

(** C4: [rgbToColorName] is a total function of the three components, each
    taken as 0 when absent. It answers Red exactly when red > 0.8, green <
    0.2 and blue < 0.2; otherwise Green exactly when green > 0.5 and red <
    0.5; otherwise Gray; and Gray when there is no colour object. In
    particular (1,0,0) is Red, (0,1,0) Green, (0,0,0) Gray, (0.9,0.1,0.1)
    Red, (0.3,0.6,0.3) Green and (1,1,1) Gray. *)
Theorem rgbToColorName_thresholds :
  (∀ c : Grid.Color,
     let r := default 0%float (Grid.red c) in
     let g := default 0%float (Grid.green c) in
     let b := default 0%float (Grid.blue c) in
     let isRed := ((0.8 <? r) && (g <? 0.2) && (b <? 0.2))%float in
     let isGreen := ((0.5 <? g) && (r <? 0.5))%float in
     (Grid.rgbToColorName (Some c) = Grid.Red ↔ isRed = true)
     ∧ (Grid.rgbToColorName (Some c) = Grid.Green
        ↔ isRed = false ∧ isGreen = true)
     ∧ (Grid.rgbToColorName (Some c) = Grid.Gray
        ↔ isRed = false ∧ isGreen = false))
  ∧ Grid.rgbToColorName None = Grid.Gray
  ∧ Grid.rgbToColorName (Some (Grid.mkColor None None None)) = Grid.Gray
  ∧ Grid.rgbToColorName (Inputs.rgb 1 0 0) = Grid.Red
  ∧ Grid.rgbToColorName (Inputs.rgb 0 1 0) = Grid.Green
  ∧ Grid.rgbToColorName (Inputs.rgb 0 0 0) = Grid.Gray
  ∧ Grid.rgbToColorName (Inputs.rgb 0.9 0.1 0.1) = Grid.Red
  ∧ Grid.rgbToColorName (Inputs.rgb 0.3 0.6 0.3) = Grid.Green
  ∧ Grid.rgbToColorName (Inputs.rgb 1 1 1) = Grid.Gray.
Proof.
  split; [|by repeat split].
  intros c r g b isRed isGreen. unfold Grid.rgbToColorName.
  fold r g b. fold isRed. fold isGreen.
  destruct isRed, isGreen; intuition congruence.
Qed.

(** ** The columns of a record *)

(** C1, as stated, fails in the flat variant: an empty compliant cell gives
    the number 0 and a non-numeric one gives [NaN], neither of them [null]. *)
Lemma flat_compliant_not_null :
  let res := Flat.parseSheetData Inputs.flatRows in
  Props.flatField res "API" "Compliant" = Some (JS.Num 0)
  ∧ Props.flatField res "API" "Compliant" ≠ Some JS.Null
  ∧ Props.flatField res "DB" "Compliant" = Some (JS.Num nan)
  ∧ Props.flatField res "DB" "Compliant" ≠ Some JS.Null.
Proof. repeat split; by vm_compute. Qed.

(** C1 (amended): in the grid variant the [Compliant] field of the record
    that a named row opens is [Number(text) || null] for the text of the
    compliant cell: it is never [NaN], and it is [null] when the text is
    "-", "null", the empty string or any other text that [Number] does not
    read as a number. In the flat variant the field of column 1 is [null]
    when the cell is exactly "-" or "null", and is [Number] of the cell
    otherwise. *)
Theorem compliant_null_coercion headerMap st row :
  let key := JS.trim (Props.textOf headerMap row "Service") in
  let t := Props.textOf headerMap row "Compliant" in
  key ≠ "" →
  (∃ r, JS.getProp key (fst (Grid.step headerMap st row)) = Some r
     ∧ Grid.Compliant r = JS.NumberOrNull t
     ∧ (∀ x, Grid.Compliant r = JS.Num x → is_nan x = false)
     ∧ (t = "-" ∨ t = "null" ∨ t = ""
        ∨ is_nan (JS.StringToNumber t) = true → Grid.Compliant r = JS.Null))
  ∧ Flat.column1 (Some "-") = JS.Null
  ∧ Flat.column1 (Some "null") = JS.Null
  ∧ (∀ c, c ≠ Some "-" → c ≠ Some "null" →
       Flat.column1 c = JS.Num (JS.Number c))
  ∧ (∀ headers data frow serviceName,
       frow !! 0%nat = Some serviceName → serviceName ≠ "" →
       let k := Flat.propertyKey (headers !! 1%nat) in
       k ≠ Flat.propertyKey (headers !! 2%nat) →
       k ≠ Flat.propertyKey (headers !! 3%nat) →
       k ≠ Flat.propertyKey (headers !! 4%nat) →
       ∃ e, JS.getProp serviceName (Flat.step headers data frow) = Some e
          ∧ e !! k = Some (Flat.column1 (frow !! 1%nat))).
Proof.
  intros key t Hkey. repeat split.
  - destruct (step_named headerMap st row Hkey) as (_ & r & Hr & Hc & _).
    exists r. fold key in Hr. fold t in Hc. repeat split; [done..| |].
    + intros x Hx. destruct (NumberOrNull_cases t) as [Hn | (y & Hy & ? & _)];
        congruence.
    + rewrite Hc. intros [-> | [-> | [-> | Hnan]]];
        [by vm_compute.. | by apply NumberOrNull_nan].
  - intros c H1 H2. unfold Flat.column1.
    rewrite bool_decide_eq_false_2; [done | intros [?|?]; done].
  - intros headers data frow serviceName H0 Hne k H2 H3 H4.
    rewrite (flat_step_named _ _ _ _ H0 Hne), getProp_setProp.
    eexists; split; [done|]. unfold Flat.entry. fold k.
    rewrite !lookup_insert_ne by congruence. apply lookup_insert_eq.
Qed.

Lemma compliant_null_coercion_witness :
  ∃ r, JS.getProp "API"
         (fst (Grid.step Inputs.headerMap Inputs.start Inputs.dashRow)) = Some r
     ∧ Grid.Compliant r = JS.Null.
Proof.
  destruct (compliant_null_coercion Inputs.headerMap Inputs.start Inputs.dashRow)
    as [(r & Hr & _ & _ & Hnull) _]; [by vm_compute|].
  exists r. split; [exact Hr|]. apply Hnull. left. by vm_compute.
Defined.

(** C2, as stated, fails in the flat variant: the placeholder "-" in the
    columns of Total, Missing and %Compliant is stored as [null], not as the
    text "-". *)
Lemma flat_dash_not_verbatim :
  let res := Flat.parseSheetData Inputs.flatRows in
  Props.flatField res "Cache" "Total" = Some JS.Null
  ∧ Props.flatField res "Cache" "Missing" = Some JS.Null
  ∧ Props.flatField res "Cache" "%Compliant" = Some JS.Null
  ∧ Props.flatField res "Cache" "Total" ≠ Some (JS.Str "-")
  ∧ Props.flatField res "API" "Total" = Some (JS.Num 100).
Proof. repeat split; by vm_compute. Qed.

(** C2 (amended): in the grid variant the record that a named row opens
    holds in [Total], [Mising] and [%Compliant] the formatted texts of the
    cells of those columns, unchanged (the literal "-" included), and the
    empty string for a cell that is absent. In the flat variant the cells of
    columns 3 and 4 are kept as they are except that "-" becomes [null], and
    column 2 becomes [null] for "-" and [Number] of the cell otherwise. *)
Theorem text_columns_verbatim headerMap st row :
  let key := JS.trim (Props.textOf headerMap row "Service") in
  key ≠ "" →
  (∃ r, JS.getProp key (fst (Grid.step headerMap st row)) = Some r
     ∧ Grid.Total r = Props.textOf headerMap row "Total"
     ∧ Grid.Mising r = Props.textOf headerMap row "Mising"
     ∧ Grid.PercentCompliant r = Props.textOf headerMap row "% Compliant")
  ∧ (∀ h i cell s,
       headerMap !! h = Some i → Props.cellsOf row !! i = Some cell →
       Grid.formattedValue cell = Some s → Props.textOf headerMap row h = s)
  ∧ (∀ h i,
       headerMap !! h = Some i → Props.cellsOf row !! i = None →
       Props.textOf headerMap row h = "")
  ∧ (∀ s, Flat.column34 (Some s)
          = if bool_decide (s = "-") then JS.Null else JS.Str s)
  ∧ (∀ c, Flat.column2 c
          = if bool_decide (c = Some "-") then JS.Null
            else JS.Num (JS.Number c))
  ∧ (∀ headers data frow serviceName,
       frow !! 0%nat = Some serviceName → serviceName ≠ "" →
       JS.getProp serviceName (Flat.step headers data frow)
         = Some (Flat.entry headers frow)).
Proof.
  intros key Hkey. repeat split.
  - destruct (step_named headerMap st row Hkey) as (_ & r & Hr & _ & Ht & Hm & Hp).
    by exists r.
  - intros h i cell s Hh Hi Hs.
    unfold Props.textOf, Grid.getCellData. by rewrite Hh, Hi, Hs.
  - intros h i Hh Hi.
    unfold Props.textOf, Grid.getCellData. by rewrite Hh, Hi.
  - intros headers data frow serviceName H0 Hne.
    by rewrite (flat_step_named _ _ _ _ H0 Hne), getProp_setProp.
Qed.

Lemma text_columns_verbatim_witness :
  ∃ r, JS.getProp "API"
         (fst (Grid.step Inputs.headerMap Inputs.start Inputs.dashRow)) = Some r
     ∧ Grid.Total r = "-" ∧ Grid.Mising r = "-"
     ∧ Grid.PercentCompliant r = "-".
Proof.
  destruct (text_columns_verbatim Inputs.headerMap Inputs.start Inputs.dashRow)
    as [(r & Hr & Ht & Hm & Hp) _]; [by vm_compute|].
  exists r. split; [exact Hr|]. by rewrite Ht, Hm, Hp.
Defined.

(** ** Rows without a name *)

(** C3, as stated, fails in the flat variant: the name is not trimmed there,
    and a name of white space opens a record. *)
Lemma flat_blank_name_opens_record :
  JS.trim " " = ""
  ∧ Props.flatField (Flat.parseSheetData Inputs.flatRows) " " "Compliant"
    = Some (JS.Num 42).
Proof. split; by vm_compute. Qed.

(** C3 (amended): in the grid variant a row whose name cell trims to the
    empty string (absent, empty or white space only) never opens a record,
    whatever its other cells hold: the key that is open and the keys of
    [data] stay as they were, and no record changes outside its [Subheading]
    field. In the flat variant, which does not trim, this holds for a row
    whose name cell is absent or the empty string. *)
Theorem unnamed_row_opens_no_record headerMap st row
    (headers : Flat.Row) (data : JS.Obj Flat.Entry) (frow : Flat.Row) :
  JS.trim (Props.textOf headerMap row "Service") = "" →
  frow !! 0%nat = None ∨ frow !! 0%nat = Some "" →
  let st' := Grid.step headerMap st row in
  (snd st' = snd st
   ∧ dom (JS.own (fst st')) = dom (JS.own (fst st))
   ∧ (is_Some (JS.proto (fst st')) ↔ is_Some (JS.proto (fst st)))
   ∧ ∀ k r', JS.getProp k (fst st') = Some r' →
       ∃ r, JS.getProp k (fst st) = Some r ∧ Props.sameButSubheading r r')
  ∧ Flat.step headers data frow = data.
Proof.
  intros Hname Hfrow st'. split; [|by apply flat_step_unnamed].
  subst st'. unfold Grid.step. fold (Props.cellsOf row).
  rewrite (openRecord_unnamed headerMap (Props.cellsOf row) st Hname).
  split; [apply attachSubheading_current|].
  split; [apply attachSubheading_keys|].
  split; [apply attachSubheading_keys|].
  apply attachSubheading_records.
Qed.

Lemma unnamed_row_opens_no_record_witness :
  let st := Grid.step Inputs.headerMap Inputs.start Inputs.dashRow in
  let st' := Grid.step Inputs.headerMap st (Inputs.subheadingRow "Latency") in
  dom (JS.own (fst st')) = dom (JS.own (fst st))
  ∧ Flat.step Inputs.flatHeaders JS.emptyObj [""; "42"] = JS.emptyObj.
Proof.
  intros st st'.
  destruct (unnamed_row_opens_no_record Inputs.headerMap st
              (Inputs.subheadingRow "Latency")
              Inputs.flatHeaders JS.emptyObj [""; "42"])
    as [(_ & Hdom & _) Hflat]; [by vm_compute | by right |].
  split; [exact Hdom | exact Hflat].
Defined.

(** ** Properties of every record of the output *)

Section EveryRecord.
Import Props.
Variable P : Grid.EntityRecord → Prop.
Implicit Types (data : JS.Obj Grid.EntityRecord).

Lemma everyRecord_empty : everyRecord P JS.emptyObj.
Proof. split; [apply map_Forall_empty | done]. Qed.

Lemma everyRecord_setProp k r data :
  P r → everyRecord P data → everyRecord P (JS.setProp k r data).
Proof.
  intros Hr [Hown Hproto]. unfold JS.setProp. case_bool_decide; split; simpl.
  - done.
  - by intros ? [= <-].
  - by apply map_Forall_insert_2.
  - done.
Qed.

Lemma everyRecord_modifyProp k f data :
  (∀ r, P r → P (f r)) →
  everyRecord P data → everyRecord P (JS.modifyProp k f data).
Proof.
  intros Hf [Hown Hproto]. unfold JS.modifyProp.
  case_bool_decide; split; simpl.
  - done.
  - intros r'. destruct (JS.proto data) as [r|]; simpl; [|done].
    intros [= <-]. eauto.
  - intros j r'. rewrite lookup_alter. case_decide.
    + destruct (JS.own data !! k) as [r|] eqn:Hk; simpl; [|done].
      intros [= <-]. apply Hf. by eapply (Hown k).
    + apply Hown.
  - done.
Qed.

Lemma everyRecord_getProp k r data :
  everyRecord P data → JS.getProp k data = Some r → P r.
Proof.
  intros [Hown Hproto]. unfold JS.getProp. case_bool_decide; [auto|].
  apply Hown.
Qed.

(** What every record satisfies when it is opened, and keeps when a status
    or a subheading is set, holds for every record of the loop. *)
Hypothesis P_status_C : ∀ s r, P r → P (Grid.setStatusC s r).
Hypothesis P_status_E : ∀ s r, P r → P (Grid.setStatusE s r).
Hypothesis P_subheading : ∀ f r, P r → P (Grid.setSubheading f r).
Hypothesis P_open : ∀ c t m p,
  P (Grid.mkEntity (Grid.SubObject JS.emptyObj) (JS.NumberOrNull c) t m p
       None None).

Lemma P_ensureObject r : P r → P (Grid.ensureObject r).
Proof. unfold Grid.ensureObject. destruct (Grid.Subheading r); auto. Qed.

Lemma P_addSubheading k e r : P r → P (Grid.addSubheading k e r).
Proof. unfold Grid.addSubheading. destruct (Grid.Subheading r); auto. Qed.

Lemma P_cleanupRecord r : P r → P (Grid.cleanupRecord r).
Proof.
  unfold Grid.cleanupRecord. destruct (Grid.Subheading r); [|done].
  case_bool_decide; auto.
Qed.

Lemma everyRecord_step headerMap st row :
  everyRecord P (fst st) → everyRecord P (fst (Grid.step headerMap st row)).
Proof.
  intros Hst. unfold Grid.step.
  assert (everyRecord P
            (fst (Grid.openRecord headerMap (default [] (Grid.values row)) st)))
    as Hopen.
  { unfold Grid.openRecord. destruct (_ && _); [|done]. simpl.
    repeat match goal with
           | |- everyRecord P (if ?b then _ else _) => destruct b
           | |- everyRecord P (JS.modifyProp _ _ _) =>
               apply everyRecord_modifyProp; [by auto|]
           | |- everyRecord P (JS.setProp _ _ _) =>
               apply everyRecord_setProp; [by auto|]
           end; done. }
  revert Hopen. generalize (Grid.openRecord headerMap (default [] (Grid.values row)) st).
  intros [d cur] Hd. unfold Grid.attachSubheading. simpl in *.
  destruct cur as [cur|]; [|done]. destruct (_ && _); [|done]. simpl.
  apply everyRecord_modifyProp; [apply P_addSubheading|].
  by apply everyRecord_modifyProp; [apply P_ensureObject|].
Qed.

Lemma everyRecord_loop headerMap rows st :
  everyRecord P (fst st) →
  everyRecord P (fst (foldl (Grid.step headerMap) st rows)).
Proof.
  revert st. induction rows as [|row rows IH]; intros st Hst; [done|].
  simpl. apply IH. by apply everyRecord_step.
Qed.

Lemma everyRecord_cleanup data data' :
  everyRecord P data → Grid.cleanup data = JS.Ok data' →
  everyRecord P data'.
Proof.
  intros [Hown Hproto] Hclean.
  assert (everyRecord P
            (JS.mkObj (Grid.cleanupRecord <$> JS.own data) (JS.proto data)))
    as Hcleaned.
  { split; simpl; [|done]. apply map_Forall_fmap.
    intros k r Hk. apply P_cleanupRecord. by eapply (Hown k). }
  unfold Grid.cleanup in Hclean.
  destruct (JS.proto data) as [inherited|]; [|congruence].
  destruct (JS.own data !! "Compliant"), (Grid.Compliant inherited);
    congruence.
Qed.

Lemma everyRecord_parseRows rows out data :
  Grid.parseRows rows = JS.Ok out → out !! Grid.SHEET_NAME = Some data →
  everyRecord P data.
Proof.
  unfold Grid.parseRows. destruct rows as [|first body]; [done|].
  destruct (Grid.values first) as [cells|]; [|done].
  destruct (Grid.cleanup _) as [d|] eqn:Hclean; [|done].
  intros [= <-]. rewrite lookup_singleton_eq. intros [= <-].
  eapply everyRecord_cleanup; [|exact Hclean].
  apply everyRecord_loop, everyRecord_empty.
Qed.

Lemma everyRecord_parseSheetData gridData out data :
  Grid.parseSheetData gridData = JS.Ok out →
  out !! Grid.SHEET_NAME = Some data →
  everyRecord P data.
Proof.
  unfold Grid.parseSheetData.
  assert (∀ o : gmap string (JS.Obj Grid.EntityRecord),
            JS.Ok {[Grid.SHEET_NAME := JS.emptyObj]} = JS.Ok o →
            o !! Grid.SHEET_NAME = Some data → everyRecord P data) as Hempty.
  { intros o [= <-]. rewrite lookup_singleton_eq. intros [= <-].
    apply everyRecord_empty. }
  destruct (Grid.sheets gridData) as [l|]; [|done].
  destruct (Grid.find l) as [[sheet|]|]; [|apply Hempty|done].
  destruct (Grid.data sheet) as [[|grid grids]|]; [done| |apply Hempty].
  destruct (Grid.rowData grid) as [rows|]; [|apply Hempty].
  apply everyRecord_parseRows.
Qed.
End EveryRecord.

(** C10: in the grid variant the [Compliant] field of every record of the
    output is [null] or a number that is neither a zero nor [NaN], because
    the field of a record is [Number(text) || null] when a row opens it: a
    compliant cell whose text [Number] reads as 0, such as "0" or the empty
    string, gives [null]. *)
Theorem compliant_null_or_nonzero gridData out data k r :
  Grid.parseSheetData gridData = JS.Ok out →
  out !! Grid.SHEET_NAME = Some data →
  JS.own data !! k = Some r →
  Props.nullOrNonzero (Grid.Compliant r)
  ∧ JS.NumberOrNull "0" = JS.Null
  ∧ JS.NumberOrNull "" = JS.Null
  ∧ (∀ t, is_zero (JS.StringToNumber t) = true → JS.NumberOrNull t = JS.Null)
  ∧ (∀ headerMap st row,
       JS.trim (Props.textOf headerMap row "Service") ≠ "" →
       ∃ r', JS.getProp (JS.trim (Props.textOf headerMap row "Service"))
               (fst (Grid.step headerMap st row)) = Some r'
           ∧ Grid.Compliant r'
               = JS.NumberOrNull (Props.textOf headerMap row "Compliant")).
Proof.
  intros Hparse Hout Hk. split; [|split; [by vm_compute|split; [by vm_compute|]]].
  - pose proof (everyRecord_parseSheetData
      (λ r, Props.nullOrNonzero (Grid.Compliant r))) as Hall.
    destruct (Hall ltac:(done) ltac:(done) ltac:(done)
                ltac:(intros; apply NumberOrNull_cases)
                gridData out data Hparse Hout) as [Hown _].
    by eapply (Hown k).
  - split; [apply NumberOrNull_zero|].
    intros headerMap st row Hkey.
    destruct (step_named headerMap st row Hkey) as (_ & r' & Hr' & Hc & _).
    eauto.
Qed.

Lemma compliant_null_or_nonzero_witness :
  Grid.parseSheetData (Inputs.spreadsheet [Inputs.gridHeaders; Inputs.zeroRow])
    = JS.Ok {[ "Sheet1" := JS.mkObj {[ "API" := Inputs.zeroRecord ]} None ]}
  ∧ Props.nullOrNonzero (Grid.Compliant Inputs.zeroRecord).
Proof.
  assert (Grid.parseSheetData
            (Inputs.spreadsheet [Inputs.gridHeaders; Inputs.zeroRow])
          = JS.Ok {[ "Sheet1" := JS.mkObj {[ "API" := Inputs.zeroRecord ]} None ]})
    as Hparse by (vm_compute; reflexivity).
  split; [exact Hparse|].
  apply (compliant_null_or_nonzero _ _ (JS.mkObj {[ "API" := Inputs.zeroRecord ]} None)
           "API" Inputs.zeroRecord Hparse); reflexivity.
Defined.

(** ** Rows before the first name *)

Lemma step_unnamed_closed headerMap data row :
  JS.trim (Props.textOf headerMap row "Service") = "" →
  Grid.step headerMap (data, None) row = (data, None).
Proof.
  intros Hname. unfold Grid.step. fold (Props.cellsOf row).
  by rewrite (openRecord_unnamed headerMap (Props.cellsOf row) _ Hname).
Qed.

Lemma loop_unnamed_prefix headerMap data pre :
  Forall (λ row, JS.trim (Props.textOf headerMap row "Service") = "") pre →
  foldl (Grid.step headerMap) (data, None) pre = (data, None).
Proof.
  induction 1 as [|row pre Hrow _ IH]; [done|].
  simpl. by rewrite step_unnamed_closed.
Qed.

Lemma parseSheetData_rows gridData rows :
  Props.rowsOf gridData = Some rows →
  Grid.parseSheetData gridData = Grid.parseRows rows.
Proof.
  unfold Props.rowsOf, Grid.parseSheetData.
  destruct (Grid.sheets gridData) as [l|]; [|done].
  destruct (Grid.find l) as [[sheet|]|]; [|done..].
  destruct (Grid.data sheet) as [[|grid grids]|]; [done| |done].
  by intros ->.
Qed.

(** C8: the rows before the first named row (their name cell trims to the
    empty string), whatever their subheading cell holds, contribute nothing:
    after them the loop still has no record and no open key, and the output
    is the output of the grid without them. *)
Theorem subheadings_before_first_name_dropped gridData gridData' first pre rest :
  Props.rowsOf gridData = Some (first :: pre ++ rest) →
  Props.rowsOf gridData' = Some (first :: rest) →
  Forall (λ row,
    JS.trim (Props.textOf (Props.headerMapOf first) row "Service") = "") pre →
  foldl (Grid.step (Props.headerMapOf first)) (JS.emptyObj, None) pre
    = (JS.emptyObj, None)
  ∧ Grid.parseSheetData gridData = Grid.parseSheetData gridData'.
Proof.
  intros Hrows Hrows' Hpre.
  pose proof (loop_unnamed_prefix _ JS.emptyObj _ Hpre) as Hloop.
  split; [done|].
  rewrite (parseSheetData_rows _ _ Hrows), (parseSheetData_rows _ _ Hrows').
  unfold Grid.parseRows. destruct (Grid.values first) as [cells|] eqn:Hfirst; [|done].
  unfold Props.headerMapOf, Props.cellsOf in Hloop. rewrite Hfirst in Hloop.
  simpl in Hloop. by rewrite foldl_app, Hloop.
Qed.

Lemma subheadings_before_first_name_dropped_witness :
  Grid.parseSheetData
    (Inputs.spreadsheet
       [Inputs.gridHeaders; Inputs.subheadingRow "Latency"; Inputs.zeroRow])
  = Grid.parseSheetData (Inputs.spreadsheet [Inputs.gridHeaders; Inputs.zeroRow]).
Proof.
  apply (subheadings_before_first_name_dropped _ _ Inputs.gridHeaders
           [Inputs.subheadingRow "Latency"] [Inputs.zeroRow]);
    [reflexivity | reflexivity |].
  repeat constructor.
Defined.

(** ** Malformed grids *)

Lemma find_passes_over before rest :
  Forall Props.otherTitle before → Grid.find (before ++ rest) = Grid.find rest.
Proof.
  induction 1 as [|s before (p & Hp & Ht) _ IH]; [done|].
  simpl. rewrite Hp. by rewrite bool_decide_eq_false_2.
Qed.

Lemma find_no_match l : Forall Props.otherTitle l → Grid.find l = JS.Ok None.
Proof.
  intros Hl. rewrite <- (app_nil_r l). by rewrite find_passes_over.
Qed.

Lemma find_match before sheet after :
  Forall Props.otherTitle before → Props.hasTitle sheet →
  Grid.find (before ++ sheet :: after) = JS.Ok (Some sheet).
Proof.
  intros Hbefore (p & Hp & Ht). rewrite find_passes_over by done.
  simpl. rewrite Hp. by rewrite bool_decide_eq_true_2.
Qed.

(** C9, as stated, fails when the row data is absent in one of these ways:
    the flat variant, handed a response without [values], raises; so does
    the grid variant for a sheet whose [data] array is empty. The grid
    variant also raises when no sheet has the configured title but the
    response has no [sheets], or a sheet that it inspects has no
    [properties]. *)
Lemma absent_rows_raise :
  Flat.parseSheetData None
    = JS.Throw
        (JS.TypeError "Cannot read properties of undefined (reading '0')")
  ∧ Grid.parseSheetData
      (Grid.mkSpreadsheet
         (Some [Grid.mkSheet (Some (Grid.mkProperties (Some "Sheet1")))
                             (Some [])]))
    = JS.Throw
        (JS.TypeError
           "Cannot read properties of undefined (reading 'rowData')")
  ∧ Grid.parseSheetData (Grid.mkSpreadsheet None)
    = JS.Throw
        (JS.TypeError "Cannot read properties of undefined (reading 'find')")
  ∧ Grid.parseSheetData (Grid.mkSpreadsheet (Some [Grid.mkSheet None None]))
    = JS.Throw
        (JS.TypeError "Cannot read properties of undefined (reading 'title')").
Proof. by repeat split. Qed.

(** C9 (amended): in the grid variant, for a response that carries a
    [sheets] array in which every sheet that is inspected carries
    [properties] (every sheet when none has the configured title, and
    otherwise the sheets up to the first one that has it): when no sheet
    has the configured title, or the first sheet that has it lacks [data],
    or the first grid of its [data] lacks [rowData], [parseSheetData]
    returns the mapping whose only key is the sheet name, bound to an empty
    mapping, and raises nothing. The flat variant returns the same for an
    empty array of rows and for an array that holds the header row only. *)
Theorem malformed_grid_gives_empty_mapping gridData l :
  Grid.sheets gridData = Some l →
  Forall Props.otherTitle l
  ∨ (∃ before sheet after,
       l = (before ++ sheet :: after)%list
       ∧ Forall Props.otherTitle before ∧ Props.hasTitle sheet
       ∧ (Grid.data sheet = None
          ∨ ∃ grid grids,
              Grid.data sheet = Some (grid :: grids)
              ∧ Grid.rowData grid = None)) →
  Grid.parseSheetData gridData = JS.Ok {[ Grid.SHEET_NAME := JS.emptyObj ]}
  ∧ Flat.parseSheetData (Some []) = JS.Ok {[ Flat.SHEET_NAME := JS.emptyObj ]}
  ∧ ∀ headers,
      Flat.parseSheetData (Some [headers])
        = JS.Ok {[ Flat.SHEET_NAME := JS.emptyObj ]}.
Proof.
  intros Hl Hbad. split; [|by split].
  unfold Grid.parseSheetData. rewrite Hl.
  destruct Hbad as [Hnone | (before & sheet & after & -> & Hbefore & Hsheet & Hdata)].
  - by rewrite find_no_match.
  - rewrite find_match by done.
    destruct Hdata as [-> | (grid & grids & -> & ->)]; done.
Qed.

Lemma malformed_grid_gives_empty_mapping_witness :
  Grid.parseSheetData
    (Grid.mkSpreadsheet
       (Some [Grid.mkSheet (Some (Grid.mkProperties (Some "Other"))) None]))
  = JS.Ok {[ "Sheet1" := JS.emptyObj ]}.
Proof.
  refine (proj1 (malformed_grid_gives_empty_mapping
    (Grid.mkSpreadsheet
       (Some [Grid.mkSheet (Some (Grid.mkProperties (Some "Other"))) None]))
    _ eq_refl _)).
  left. repeat constructor. eexists. split; [reflexivity | discriminate].
Defined.

(** ** The cache-fronted fetcher *)

Section FetchFacts.
Context {Response Output : Type}.
Variable parse : Response → JS.Result Output.
Implicit Types (st : Server.State Output) (up : Server.Upstream Response).

Lemma fetch_hit now up st c :
  Server.cache st = Some c →
  (now - Server.cacheTimestamp st < Server.CACHE_DURATION)%Z →
  Server.fetchSheetData parse now up st = Server.mkOutcome (JS.Ok c) st 0.
Proof.
  intros Hc Hage. unfold Server.fetchSheetData. rewrite Hc.
  by rewrite (proj2 (Z.ltb_lt _ _) Hage).
Qed.

Lemma fetch_stale now up st :
  ¬ (now - Server.cacheTimestamp st < Server.CACHE_DURATION)%Z →
  Server.calls (Server.fetchSheetData parse now up st) = 1.
Proof.
  intros Hage. unfold Server.fetchSheetData.
  rewrite (proj2 (Z.ltb_nlt _ _) Hage).
  destruct (Server.cache st), up as [d|e]; simpl; try done;
    by destruct (parse d).
Qed.

(** A call that succeeds leaves its result in the cache; when it issued
    the request, the cache holds that result with the time of the call. *)
Lemma fetch_ok now up st v :
  Server.result (Server.fetchSheetData parse now up st) = JS.Ok v →
  Server.cache (Server.state (Server.fetchSheetData parse now up st)) = Some v
  ∧ (Server.calls (Server.fetchSheetData parse now up st) = 1 →
     Server.state (Server.fetchSheetData parse now up st)
       = Server.mkState (Some v) now).
Proof.
  unfold Server.fetchSheetData.
  destruct (Server.cache st) as [c|] eqn:Hc;
    [destruct (_ <? _)%Z|]; simpl;
    try (intros [= <-]; by split);
    destruct up as [d|e]; simpl; try done;
    destruct (parse d); simpl; try done; by intros [= <-].
Qed.

(** A call that fails issued the request, which was rejected or whose
    response the parser refused, and leaves the cache slot as it was. *)
Lemma fetch_throw now up st e :
  Server.result (Server.fetchSheetData parse now up st) = JS.Throw e →
  Server.state (Server.fetchSheetData parse now up st) = st
  ∧ Server.calls (Server.fetchSheetData parse now up st) = 1
  ∧ (up = Server.Rejected e
     ∨ ∃ d, up = Server.Resolved d ∧ parse d = JS.Throw e).
Proof.
  unfold Server.fetchSheetData.
  destruct (Server.cache st) as [c|]; [destruct (_ <? _)%Z|]; simpl;
    try done;
    (destruct up as [d|e']; simpl;
     [destruct (parse d) eqn:Hd; simpl; [done|]|];
     intros [= <-]; eauto 6).
Qed.

Lemma handler_fetch now up st :
  Server.handler parse now up st
  = (match Server.result (Server.fetchSheetData parse now up st) with
     | JS.Ok jsonData => Server.mkReply 200 (Server.Json jsonData)
     | JS.Throw error =>
         Server.mkReply 500
           (Server.Failure "Failed to fetch sheet data" (JS.message error))
     end,
     Server.state (Server.fetchSheetData parse now up st),
     Server.calls (Server.fetchSheetData parse now up st)).
Proof. unfold Server.handler. by destruct (Server.result _). Qed.
End FetchFacts.

(** C5: [fetchSheetData] is the same function of the parser in both files.
    After a call that succeeded, a second call whose age since the last
    fetch is below [CACHE_DURATION] (30 seconds) issues no request, returns
    the same result and leaves the cache slot as it is, so that the two
    calls issue at most one request; a call whose age is not below it
    issues a request, although the previous call succeeded. When the first
    call issued the request, the last fetch is that call. *)
Theorem cache_within_ttl {Response Output : Type}
    (parseSheetData : Response → JS.Result Output)
    (now1 now2 : Z) (up1 up2 : Server.Upstream Response)
    (st : Server.State Output) (v : Output) :
  let o1 := Server.fetchSheetData parseSheetData now1 up1 st in
  let o2 := Server.fetchSheetData parseSheetData now2 up2 (Server.state o1) in
  let age := (now2 - Server.cacheTimestamp (Server.state o1))%Z in
  Server.result o1 = JS.Ok v →
  (Server.calls o1 = 1 → age = (now2 - now1)%Z)
  ∧ ((age < Server.CACHE_DURATION)%Z →
     Server.result o2 = JS.Ok v
     ∧ Server.state o2 = Server.state o1
     ∧ Server.calls o2 = 0
     ∧ (Server.calls o1 + Server.calls o2 ≤ 1)%nat)
  ∧ (¬ (age < Server.CACHE_DURATION)%Z → Server.calls o2 = 1)
  ∧ Server.CACHE_DURATION = 30000%Z
  ∧ Flat.fetchSheetData = Server.fetchSheetData Flat.parseSheetData
  ∧ Grid.fetchSheetData = Server.fetchSheetData Grid.parseSheetData.
Proof.
  intros o1 o2 age Hok.
  destruct (fetch_ok parseSheetData now1 up1 st v Hok) as [Hcache Hfetched].
  fold o1 in Hcache, Hfetched.
  split; [|split; [|split; [|by repeat split]]].
  - intros Hcalls. subst age. by rewrite (Hfetched Hcalls).
  - intros Hage. subst o2.
    rewrite (fetch_hit parseSheetData now2 up2 _ v Hcache Hage). simpl.
    repeat split; try done.
    assert (Server.calls o1 ≤ 1)%nat; [|lia].
    subst o1. unfold Server.fetchSheetData.
    destruct (Server.cache st); [destruct (_ <? _)%Z|]; simpl; try lia;
      destruct up1 as [d|e]; simpl; try lia; destruct (parseSheetData d);
      simpl; lia.
  - apply fetch_stale.
Qed.

Lemma cache_within_ttl_witness :
  let up := Server.Resolved (Some [Inputs.flatHeaders; ["API"; "42"]]) in
  let o1 := Flat.fetchSheetData 1000 up Server.initial in
  let o2 := Flat.fetchSheetData 30999 (Server.Rejected (JS.AxiosError "Network Error"))
              (Server.state o1) in
  Server.result o2 = Server.result o1 ∧ Server.calls o1 + Server.calls o2 = 1.
Proof.
  intros up o1 o2.
  destruct (cache_within_ttl Flat.parseSheetData 1000 30999 up
              (Server.Rejected (JS.AxiosError "Network Error")) Server.initial
              {[ "Sheet1" :=
                   foldl (Flat.step Inputs.flatHeaders) JS.emptyObj [["API"; "42"]] ]}
              eq_refl)
    as (_ & Hhit & _).
  destruct Hhit as (Hres & _ & Hcalls & _); [reflexivity|].
  split; [exact Hres | reflexivity].
Defined.

(** The errors that the parsers raise carry a message. *)
Lemma grid_find_message l e : Grid.find l = JS.Throw e → JS.message e ≠ "".
Proof.
  induction l as [|s l IH]; simpl; [done|].
  destruct (Grid.properties s); [|by intros [= <-]].
  by case_bool_decide.
Qed.

Lemma grid_parse_message gridData e :
  Grid.parseSheetData gridData = JS.Throw e → JS.message e ≠ "".
Proof.
  unfold Grid.parseSheetData.
  destruct (Grid.sheets gridData) as [l|]; [|by intros [= <-]].
  destruct (Grid.find l) as [[sheet|]|e'] eqn:Hfind;
    [| done | intros [= <-]; by eapply grid_find_message].
  destruct (Grid.data sheet) as [[|grid grids]|]; [by intros [= <-]| |done].
  destruct (Grid.rowData grid) as [rows|]; [|done].
  unfold Grid.parseRows. destruct rows as [|first body]; [by intros [= <-]|].
  destruct (Grid.values first); [|by intros [= <-]].
  destruct (Grid.cleanup _) as [d|e'] eqn:Hclean; [done|].
  intros [= <-]. revert Hclean. unfold Grid.cleanup.
  destruct (JS.proto _) as [inherited|]; [|done].
  destruct (JS.own _ !! "Compliant"), (Grid.Compliant inherited);
    try done; by intros [= <-].
Qed.

Lemma flat_parse_message rows e :
  Flat.parseSheetData rows = JS.Throw e → JS.message e ≠ "".
Proof.
  unfold Flat.parseSheetData. destruct rows as [[|headers body]|]; try done.
  by intros [= <-].
Qed.

Section HandlerFacts.
Context {Response Output : Type}.
Variable parse : Response → JS.Result Output.
Implicit Types (st : Server.State Output) (up : Server.Upstream Response).

(** A call that finds no fresh cache sends the request, and what the
    handler then does is decided by the answer alone. *)
Lemma handler_miss now up st :
  Server.cache st = None
  ∨ ¬ (now - Server.cacheTimestamp st < Server.CACHE_DURATION)%Z →
  Server.handler parse now up st
  = match up with
    | Server.Rejected e =>
        (Server.mkReply 500
           (Server.Failure "Failed to fetch sheet data" (JS.message e)),
         st, 1)
    | Server.Resolved d =>
        match parse d with
        | JS.Throw e =>
            (Server.mkReply 500
               (Server.Failure "Failed to fetch sheet data" (JS.message e)),
             st, 1)
        | JS.Ok v =>
            (Server.mkReply 200 (Server.Json v), Server.mkState (Some v) now, 1)
        end
    end.
Proof.
  intros Hmiss. unfold Server.handler, Server.fetchSheetData.
  assert (match Server.cache st with
          | Some c =>
              if (now - Server.cacheTimestamp st <? Server.CACHE_DURATION)%Z
              then true else false
          | None => false
          end = false) as Hstale.
  { destruct Hmiss as [-> | Hage]; [done|].
    rewrite (proj2 (Z.ltb_nlt _ _) Hage). by destruct (Server.cache st). }
  destruct (Server.cache st) as [c|];
    [destruct (_ <? _)%Z; [done|]|];
    destruct up as [d|e]; simpl; try done; by destruct (parse d).
Qed.

Lemma handler_failure now up st e :
  Server.cache st = None
  ∨ ¬ (now - Server.cacheTimestamp st < Server.CACHE_DURATION)%Z →
  up = Server.Rejected e
  ∨ (∃ d, up = Server.Resolved d ∧ parse d = JS.Throw e) →
  Server.handler parse now up st
  = (Server.mkReply 500
       (Server.Failure "Failed to fetch sheet data" (JS.message e)),
     st, 1).
Proof.
  intros Hmiss Hfail. rewrite (handler_miss now up st Hmiss).
  destruct Hfail as [-> | (d & -> & Hd)]; [done | by rewrite Hd].
Qed.

Lemma handler_success now d st v :
  Server.cache st = None
  ∨ ¬ (now - Server.cacheTimestamp st < Server.CACHE_DURATION)%Z →
  parse d = JS.Ok v →
  Server.handler parse now (Server.Resolved d) st
  = (Server.mkReply 200 (Server.Json v), Server.mkState (Some v) now, 1).
Proof.
  intros Hmiss Hd. by rewrite (handler_miss now _ st Hmiss), Hd.
Qed.

(** The reply is an error only for a call that sent the request and failed,
    and such a call leaves the cache slot as it was. *)
Lemma handler_error_only_on_failure now up st error details st' n :
  Server.handler parse now up st
    = (Server.mkReply 500 (Server.Failure error details), st', n) →
  st' = st ∧ n = 1
  ∧ (Server.cache st = None
     ∨ ¬ (now - Server.cacheTimestamp st < Server.CACHE_DURATION)%Z)
  ∧ ∃ e, details = JS.message e
       ∧ (up = Server.Rejected e
          ∨ ∃ d, up = Server.Resolved d ∧ parse d = JS.Throw e).
Proof.
  destruct (Server.cache st) as [c|] eqn:Hc.
  - destruct (decide (now - Server.cacheTimestamp st < Server.CACHE_DURATION)%Z)
      as [Hage|Hage].
    + rewrite handler_fetch, (fetch_hit parse now up st c Hc Hage). done.
    + rewrite (handler_miss now up st (or_intror Hage)).
      destruct up as [d|e]; [destruct (parse d) as [v|e] eqn:Hd|];
        intros [= <- <- <- <-]; eauto 10.
  - rewrite (handler_miss now up st (or_introl Hc)).
    destruct up as [d|e]; [destruct (parse d) as [v|e] eqn:Hd|];
      intros [= <- <- <- <-]; eauto 10.
Qed.
End HandlerFacts.

(** C6, as stated, fails for a rejection whose error has an empty message:
    the handler hands [error.message] on as it is, and [details] is then
    the empty string. *)
Lemma rejection_without_message :
  let st := Server.mkState (Some {[ "Sheet1" := JS.emptyObj ]}) 1000 in
  Grid.handler 40000%Z (Server.Rejected (JS.AxiosError "")) st
  = (Server.mkReply 500 (Server.Failure "Failed to fetch sheet data" ""),
     st, 1)
  ∧ Flat.handler 40000%Z (Server.Rejected (JS.AxiosError "")) Server.initial
    = (Server.mkReply 500 (Server.Failure "Failed to fetch sheet data" ""),
       Server.initial, 1).
Proof. by split. Qed.

(** C6 (amended): in both files, when a call that finds no fresh cache has
    its request rejected, or the parser raises on the response, the handler
    replies 500 with the message of that error as [details] and leaves
    [cache] and [cacheTimestamp] exactly as they were. The message is not
    empty when it is the parser that raised; for a rejected request it is
    the message that the rejection carries, whatever it is. When the
    request is answered and the parser returns, the handler replies 200 and
    the cache slot is replaced as a whole by the result and the time of the
    call. A reply 500 is given in no other case. *)
Theorem failed_fetch_keeps_cache :
  (∀ now up st e,
     Server.cache st = None
     ∨ ¬ (now - Server.cacheTimestamp st < Server.CACHE_DURATION)%Z →
     up = Server.Rejected e
     ∨ (∃ d, up = Server.Resolved d ∧ Grid.parseSheetData d = JS.Throw e) →
     Grid.handler now up st
       = (Server.mkReply 500
            (Server.Failure "Failed to fetch sheet data" (JS.message e)),
          st, 1)
     ∧ ((∃ d, up = Server.Resolved d ∧ Grid.parseSheetData d = JS.Throw e) →
        JS.message e ≠ ""))
  ∧ (∀ now d st v,
       Server.cache st = None
       ∨ ¬ (now - Server.cacheTimestamp st < Server.CACHE_DURATION)%Z →
       Grid.parseSheetData d = JS.Ok v →
       Grid.handler now (Server.Resolved d) st
         = (Server.mkReply 200 (Server.Json v),
            Server.mkState (Some v) now, 1))
  ∧ (∀ now up st error details st' n,
       Grid.handler now up st
         = (Server.mkReply 500 (Server.Failure error details), st', n) →
       st' = st ∧ n = 1
       ∧ ∃ e, details = JS.message e
            ∧ (up = Server.Rejected e
               ∨ ∃ d, up = Server.Resolved d
                    ∧ Grid.parseSheetData d = JS.Throw e))
  ∧ (∀ now up st e,
       Server.cache st = None
       ∨ ¬ (now - Server.cacheTimestamp st < Server.CACHE_DURATION)%Z →
       up = Server.Rejected e
       ∨ (∃ d, up = Server.Resolved d ∧ Flat.parseSheetData d = JS.Throw e) →
       Flat.handler now up st
         = (Server.mkReply 500
              (Server.Failure "Failed to fetch sheet data" (JS.message e)),
            st, 1)
       ∧ ((∃ d, up = Server.Resolved d ∧ Flat.parseSheetData d = JS.Throw e) →
          JS.message e ≠ ""))
  ∧ (∀ now d st v,
       Server.cache st = None
       ∨ ¬ (now - Server.cacheTimestamp st < Server.CACHE_DURATION)%Z →
       Flat.parseSheetData d = JS.Ok v →
       Flat.handler now (Server.Resolved d) st
         = (Server.mkReply 200 (Server.Json v),
            Server.mkState (Some v) now, 1))
  ∧ (∀ now up st error details st' n,
       Flat.handler now up st
         = (Server.mkReply 500 (Server.Failure error details), st', n) →
       st' = st ∧ n = 1
       ∧ ∃ e, details = JS.message e
            ∧ (up = Server.Rejected e
               ∨ ∃ d, up = Server.Resolved d
                    ∧ Flat.parseSheetData d = JS.Throw e)).
Proof.
  split_and!.
  - intros now up st e Hmiss Hfail.
    split; [by apply handler_failure|].
    intros (d & _ & Hd). by eapply grid_parse_message.
  - intros now d st v. apply handler_success.
  - intros now up st error details st' n Hreply.
    destruct (handler_error_only_on_failure _ _ _ _ _ _ _ _ Hreply)
      as (? & ? & _ & ?). done.
  - intros now up st e Hmiss Hfail.
    split; [by apply handler_failure|].
    intros (d & _ & Hd). by eapply flat_parse_message.
  - intros now d st v. apply handler_success.
  - intros now up st error details st' n Hreply.
    destruct (handler_error_only_on_failure _ _ _ _ _ _ _ _ Hreply)
      as (? & ? & _ & ?). done.
Qed.

Lemma failed_fetch_keeps_cache_witness :
  let st := Server.mkState
              (Some {[ "Sheet1" := JS.emptyObj ]}) 1000 in
  Grid.handler 40000%Z (Server.Rejected (JS.AxiosError "Network Error")) st
  = (Server.mkReply 500
       (Server.Failure "Failed to fetch sheet data" "Network Error"),
     st, 1)
  ∧ Grid.handler 40000%Z (Server.Resolved (Grid.mkSpreadsheet None)) st
    = (Server.mkReply 500
         (Server.Failure "Failed to fetch sheet data"
            "Cannot read properties of undefined (reading 'find')"),
       st, 1).
Proof.
  intros st.
  destruct failed_fetch_keeps_cache as (Hgrid & _).
  split.
  - destruct (Hgrid 40000%Z (Server.Rejected (JS.AxiosError "Network Error")) st
                (JS.AxiosError "Network Error")) as (Hreply & _);
      [right; by vm_compute | by left | exact Hreply].
  - destruct (Hgrid 40000%Z (Server.Resolved (Grid.mkSpreadsheet None)) st
                (JS.TypeError
                   "Cannot read properties of undefined (reading 'find')"))
      as (Hreply & _);
      [right; by vm_compute | right; by eexists | exact Hreply].
Defined.

(** ** The subheading mapping and the rows attached to a record *)

Section Attachments.
Import Props.
Variable headerMap : gmap string nat.
Implicit Types (st : Grid.LoopState) (row : Grid.RowData)
  (acc : gmap string (list string) * option string).

Lemma own_proto_setProp {V} k (v : V) (o : JS.Obj V) :
  JS.own o !! "__proto__" = None →
  JS.own (JS.setProp k v o) !! "__proto__" = None.
Proof.
  intros Ho. unfold JS.setProp. case_bool_decide; simpl; [done|].
  by rewrite lookup_insert_ne.
Qed.

Lemma own_proto_modifyProp {V} k (f : V → V) (o : JS.Obj V) :
  JS.own o !! "__proto__" = None →
  JS.own (JS.modifyProp k f o) !! "__proto__" = None.
Proof.
  intros Ho. unfold JS.modifyProp. case_bool_decide; simpl; [done|].
  by rewrite lookup_alter_ne.
Qed.

(** Opening a record leaves the other keys alone. *)
Lemma openRecord_other cells st k :
  k ≠ JS.trim (Grid.value (Grid.getCellData headerMap cells "Service")) →
  JS.getProp k (fst (Grid.openRecord headerMap cells st))
    = JS.getProp k (fst st).
Proof.
  intros Hk. unfold Grid.openRecord. destruct (_ && _); [|done]. simpl.
  destruct (JS.truthy (Grid.value (Grid.getCellData headerMap cells "Status C")));
    destruct (JS.truthy (Grid.value (Grid.getCellData headerMap cells "Status E")));
    rewrite ?getProp_modifyProp_ne by done; by rewrite getProp_setProp_ne.
Qed.

Lemma openRecord_own_proto cells st :
  JS.own (fst st) !! "__proto__" = None →
  JS.own (fst (Grid.openRecord headerMap cells st)) !! "__proto__" = None.
Proof.
  intros Hst. unfold Grid.openRecord. destruct (_ && _); [|done]. simpl.
  destruct (JS.truthy (Grid.value (Grid.getCellData headerMap cells "Status C")));
    destruct (JS.truthy (Grid.value (Grid.getCellData headerMap cells "Status E")));
    repeat apply own_proto_modifyProp; by apply own_proto_setProp.
Qed.

Lemma agree_start : agree (JS.emptyObj, None) (∅, None).
Proof.
  repeat split. intros k. unfold JS.getProp. simpl.
  case_bool_decide; by rewrite ?lookup_empty.
Qed.

Lemma agree_open st acc row :
  agree st acc →
  agree (Grid.openRecord headerMap (cellsOf row) st) (openNames headerMap row acc).
Proof.
  intros Hagree. pose proof Hagree as (Hcur & Hproto & Hrec).
  unfold openNames, textOf.
  set (key := JS.trim (Grid.value (Grid.getCellData headerMap (cellsOf row) "Service"))).
  destruct (decide (key = "")) as [Hempty | Hkey].
  - rewrite (openRecord_unnamed headerMap _ st Hempty).
    by rewrite bool_decide_eq_true_2, andb_false_r.
  - rewrite (trim_nonempty_truthy _ Hkey), (bool_decide_eq_false_2 _ Hkey).
    simpl.
    destruct (openRecord_named headerMap (cellsOf row) st Hkey)
      as (Hopen & r & Hr & Hsub & _).
    fold key in Hopen, Hr.
    split; [done|]. split; [by apply openRecord_own_proto|].
    intros k. simpl. destruct (decide (k = key)) as [->|Hne].
    + rewrite Hr, lookup_insert_eq. by exists JS.emptyObj.
    + rewrite (openRecord_other _ _ _ Hne), lookup_insert_ne by done.
      apply Hrec.
Qed.

Lemma ownNames_snoc l s :
  list_to_set (C := gset string) (ownNames (l ++ [s]))
  = if bool_decide (s = "__proto__")
    then list_to_set (ownNames l)
    else {[ s ]} ∪ list_to_set (ownNames l).
Proof.
  unfold ownNames. rewrite list.filter_app, list_to_set_app_L.
  destruct (decide (s = "__proto__")) as [->|Hne].
  - rewrite bool_decide_eq_true_2 by done.
    rewrite list.filter_cons_False by (intros H; by apply H).
    rewrite list.filter_nil, list_to_set_nil. apply (right_id_L ∅ (∪)).
  - rewrite bool_decide_eq_false_2 by done.
    rewrite list.filter_cons_True by done.
    rewrite list.filter_nil, list_to_set_singleton_L. apply (comm_L (∪)).
Qed.

Lemma agree_attach st acc row :
  agree st acc →
  agree (Grid.attachSubheading headerMap (cellsOf row) st)
        (attachNames headerMap row acc).
Proof.
  intros Hagree. pose proof Hagree as (Hcur & Hproto & Hrec).
  unfold Grid.attachSubheading, attachNames, textOf. rewrite <- Hcur.
  destruct (snd st) as [key|] eqn:Hkey; [|done].
  set (s := JS.trim (Grid.value (Grid.getCellData headerMap (cellsOf row) "Subheading"))).
  destruct (_ && _); [|done]. simpl.
  split; [done|]. split; [by do 2 apply own_proto_modifyProp|].
  intros k. cbn [fst]. destruct (decide (k = key)) as [->|Hne].
  - rewrite !getProp_modifyProp, lookup_alter_eq. specialize (Hrec key).
    destruct (JS.getProp key (fst st)) as [r|], (fst acc !! key) as [l|];
      simpl; try done.
    destruct Hrec as (o & Ho & Hdom).
    unfold Grid.ensureObject, Grid.addSubheading. rewrite Ho. simpl. rewrite Ho.
    eexists. split; [done|]. rewrite ownNames_snoc, <- Hdom.
    unfold JS.setProp. case_bool_decide; simpl; [done|].
    by rewrite dom_insert_L.
  - rewrite !getProp_modifyProp_ne, lookup_alter_ne by done. apply Hrec.
Qed.

Lemma agree_step st acc row :
  agree st acc →
  agree (Grid.step headerMap st row) (attachStep headerMap acc row).
Proof.
  intros H. unfold Grid.step, attachStep. fold (cellsOf row).
  by apply agree_attach, agree_open.
Qed.

Lemma agree_loop rows st acc :
  agree st acc →
  agree (foldl (Grid.step headerMap) st rows)
        (foldl (attachStep headerMap) acc rows).
Proof.
  revert st acc. induction rows as [|row rows IH]; intros st acc H; [done|].
  simpl. by apply IH, agree_step.
Qed.

(** The key that is open always has its record. *)
Lemma loop_current_defined rows key :
  snd (foldl (Grid.step headerMap) (JS.emptyObj, None) rows) = Some key →
  is_Some (JS.getProp key (fst (foldl (Grid.step headerMap) (JS.emptyObj, None) rows))).
Proof.
  revert key. induction rows as [|row rows IH] using rev_ind; [done|].
  intros key. rewrite foldl_app. simpl.
  set (st := foldl (Grid.step headerMap) (JS.emptyObj, None) rows) in *.
  unfold Grid.step. fold (cellsOf row). rewrite attachSubheading_current.
  intros Hcur.
  assert (is_Some (JS.getProp key
            (fst (Grid.openRecord headerMap (cellsOf row) st)))) as [r Hr].
  { destruct (decide (JS.trim (Grid.value
       (Grid.getCellData headerMap (cellsOf row) "Service")) = "")) as [He|Hne].
    - rewrite (openRecord_unnamed headerMap _ st He) in *. by apply IH.
    - destruct (openRecord_named headerMap (cellsOf row) st Hne)
        as (Hopen & r & Hr & _).
      rewrite Hopen in Hcur. injection Hcur as <-. eauto. }
  unfold Grid.attachSubheading. rewrite Hcur.
  destruct (_ && _); simpl; rewrite ?getProp_modifyProp, Hr; eauto.
Qed.
End Attachments.

Lemma cleanup_own data data' :
  Grid.cleanup data = JS.Ok data' →
  JS.own data' = Grid.cleanupRecord <$> JS.own data.
Proof.
  unfold Grid.cleanup. destruct (JS.proto data) as [inherited|];
    [|by intros [= <-]].
  destruct (JS.own data !! "Compliant"), (Grid.Compliant inherited);
    try done; by intros [= <-].
Qed.

Lemma keys_empty {V} (o : JS.Obj V) :
  length (JS.keys o) = 0%nat ↔ dom (JS.own o) = ∅.
Proof.
  unfold JS.keys. rewrite length_fmap, dom_empty_iff_L.
  rewrite <- map_to_list_empty_iff. split; [apply nil_length_inv | by intros ->].
Qed.

Lemma list_to_set_empty_nil (l : list string) :
  list_to_set (C := gset string) l = ∅ ↔ l = [].
Proof.
  split; [|by intros ->]. destruct l as [|x l]; [done|].
  rewrite list_to_set_cons. set_solver.
Qed.

(** What the code does for C7: the [Subheading] field of a record of the
    output is 0 exactly when no name other than [__proto__] was attached to
    it, and otherwise the mapping whose keys are the attached names other
    than [__proto__]. *)
Lemma subheading_field_characterised gridData first body out data key r :
  Props.rowsOf gridData = Some (first :: body) →
  Grid.parseSheetData gridData = JS.Ok out →
  out !! Grid.SHEET_NAME = Some data →
  JS.own data !! key = Some r →
  ∃ l, Props.attached (Props.headerMapOf first) body !! key = Some l
     ∧ (Grid.Subheading r = Grid.SubZero ↔ Props.ownNames l = [])
     ∧ (Props.ownNames l ≠ [] →
        ∃ o, Grid.Subheading r = Grid.SubObject o
           ∧ dom (JS.own o) = list_to_set (Props.ownNames l)).
Proof.
  intros Hrows Hparse Hout Hkey.
  rewrite (parseSheetData_rows _ _ Hrows) in Hparse.
  unfold Grid.parseRows in Hparse.
  destruct (Grid.values first) as [cells|] eqn:Hfirst; [|done].
  destruct (Grid.cleanup _) as [d|] eqn:Hclean; [|done].
  injection Hparse as <-. rewrite lookup_singleton_eq in Hout.
  injection Hout as <-.
  assert (Grid.buildHeaderMap (Grid.formattedValue <$> cells) 0 ∅
          = Props.headerMapOf first) as Hmap.
  { unfold Props.headerMapOf, Props.cellsOf. by rewrite Hfirst. }
  rewrite Hmap in Hclean.
  destruct (agree_loop (Props.headerMapOf first) body _ _ agree_start)
    as (_ & Hproto & Hrec).
  rewrite (cleanup_own _ _ Hclean), lookup_fmap in Hkey.
  set (st := foldl (Grid.step (Props.headerMapOf first)) (JS.emptyObj, None) body) in *.
  destruct (JS.own (fst st) !! key) as [r0|] eqn:Hr0; [|done].
  injection Hkey as <-.
  assert (key ≠ "__proto__") as Hne by congruence.
  specialize (Hrec key). unfold JS.getProp in Hrec.
  rewrite (bool_decide_eq_false_2 _ Hne), Hr0 in Hrec.
  unfold Props.attached.
  destruct (fst (foldl _ _ body) !! key) as [l|]; [|done].
  destruct Hrec as (o & Ho & Hdom). exists l. split; [done|].
  unfold Grid.cleanupRecord. rewrite Ho.
  rewrite <- list_to_set_empty_nil, <- Hdom, <- keys_empty.
  case_bool_decide; simpl; split; try done.
  - rewrite Ho. by intros.
  - intros _. rewrite Ho. eauto.
Qed.

(** C7 at a subheading named [__proto__]: the row is attached to the record
    of "API" (the assignment of line 126 runs and installs the entry as the
    prototype of the mapping), but the mapping gets no own key, and the
    clean-up replaces it by 0. With the name "Latency" in the same place
    the field is the mapping with that one key. *)
Theorem proto_subheading_lost :
  let rows := [Inputs.apiRow; Inputs.subheadingRow "__proto__"] in
  Props.attached Inputs.headerMap rows !! "API" = Some ["__proto__"]
  ∧ foldl (Grid.step Inputs.headerMap) Inputs.start rows
    = (JS.mkObj
         {[ "API" := Inputs.apiRecord
              (Grid.SubObject (JS.mkObj ∅ (Some (Grid.mkSubEntry Grid.Gray)))) ]}
         None,
       Some "API")
  ∧ Grid.parseSheetData (Inputs.spreadsheet (Inputs.gridHeaders :: rows))
    = JS.Ok {[ "Sheet1" :=
                 JS.mkObj {[ "API" := Inputs.apiRecord Grid.SubZero ]} None ]}
  ∧ Grid.parseSheetData
      (Inputs.spreadsheet
         [Inputs.gridHeaders; Inputs.apiRow; Inputs.subheadingRow "Latency"])
    = JS.Ok {[ "Sheet1" :=
                 JS.mkObj
                   {[ "API" := Inputs.apiRecord
                        (Grid.SubObject
                           (JS.mkObj {[ "Latency" := Grid.mkSubEntry Grid.Gray ]}
                                     None)) ]}
                   None ]}.
Proof. repeat split; vm_compute; reflexivity. Qed.
